(** * sqlhelp: generic SQL helpers over tagged records

    A shallow embedding of the Go package [sqlhelp] (files [sqlhelp.go],
    [helpers.go] and [postgres.go]).  The package is a thin layer over
    collaborators that live outside the repository:

    - [tagops] (reflection over struct tags): [ToMap] and [Tags];
    - [squirrel] (statement builder): [Insert], [Select], [Update],
      [Delete], their [SetMap] / [Where] / [Suffix] / [ToSql] methods;
    - [sqlx] over [database/sql]: [ExtContext], [Rows], [Row], [Result];
    - [net/url] and [strings] of the Go library, for [AddSearchPath].

    The collaborators are modelled first, as far as the helpers observe
    them; then every helper is transcribed statement by statement. *)

From Equations Require Import Equations.
From stdpp Require Import gmap strings list sorting.
From Stdlib Require Import ZArith Ascii.

Local Open Scope string_scope.
Local Open Scope Z_scope.

(** ** Go errors *)

(** A Go [error] value.  [sql.ErrNoRows] is the one sentinel the package
    inspects; [ErrWrap] is an error that unwraps to another one
    ([fmt.Errorf] with the wrapping verb).  The nil error is [None] of
    [option error]. *)
Inductive error : Type :=
| ErrNoRows
| ErrMsg (msg : string)
| ErrWrap (msg : string) (cause : error).

#[global] Instance error_eq_dec : EqDecision error.
Proof. solve_decision. Defined.

(** [errors.Is(err, target)]: [err] or an error in its unwrap chain is
    equal to [target]. *)
Fixpoint errors_Is (err target : error) : bool :=
  bool_decide (err = target) ||
  match err with
  | ErrWrap _ cause => errors_Is cause target
  | _ => false
  end.

(** A Go result [(v, err)] of which the caller reads [v] only when [err]
    is nil. *)
Inductive result (A : Type) : Type :=
| Ok (a : A)
| Fail (err : error).
Arguments Ok {A} a.
Arguments Fail {A} err.

Definition result_map {A B} (f : A -> B) (r : result A) : result B :=
  match r with
  | Ok a => Ok (f a)
  | Fail err => Fail err
  end.

(** [context.Context], as far as a helper can observe it: the error that
    [ctx.Err()] reports, if the context is done.  The helpers only hand it
    on to the connection. *)
Record Context : Type := { ctx_Err : option error }.

Definition Background : Context := {| ctx_Err := None |}.

(** ** squirrel: the statement builder *)

(** [sort.Strings] order on column names. *)
Definition str_le (a b : string) : Prop := Is_true (String.leb a b).

#[global] Instance str_le_dec a b : Decision (str_le a b).
Proof. unfold str_le. apply _. Defined.

Definition sort_strings (l : list string) : list string := merge_sort str_le l.

(** The bindings of the keys [ks] in the map [m], in the order of [ks]. *)
Definition bindings_of {any : Type} (m : gmap string any) (ks : list string)
    : list (string * any) :=
  omap (fun k => pair k <$> m !! k) ks.

Module sq.
Section Builder.
(** Go's [any]: bind arguments and reflected field values. *)
Context {any : Type}.

(** [squirrel.Sqlizer]: all a helper does with a predicate is hand it to
    the builder, which calls its [ToSql]. *)
Record Sqlizer : Type := { ToSql : result (string * list any) }.

(** [appendToSql(parts, w, sep, args)]: the separator goes before every
    part but the first one by index; a part with empty text is skipped;
    the first failing part aborts. *)
Fixpoint appendToSql (parts : list Sqlizer) (first : bool) (sep : string)
    (sql : string) (args : list any) : result (string * list any) :=
  match parts with
  | [] => Ok (sql, args)
  | p :: rest =>
    match ToSql p with
    | Fail err => Fail err
    | Ok (partSql, partArgs) =>
      if String.eqb partSql "" then appendToSql rest false sep sql args
      else
        let sql := if first then sql else (sql ++ sep)%string in
        appendToSql rest false sep (sql ++ partSql)%string (args ++ partArgs)
    end
  end.

Definition appendWhere (parts : list Sqlizer) (sql : string) (args : list any)
    : result (string * list any) :=
  match parts with
  | [] => Ok (sql, args)
  | _ => appendToSql parts true " AND " (sql ++ " WHERE ")%string args
  end.

(** *** INSERT *)
Record InsertBuilder : Type := {
  ib_Into : string;
  ib_Columns : list string;
  ib_Values : list (list any);
  ib_Suffixes : list string;
}.

Definition Insert (into : string) : InsertBuilder :=
  {| ib_Into := into; ib_Columns := []; ib_Values := []; ib_Suffixes := [] |}.

(** [InsertBuilder.SetMap]: the keys sorted, the values looked up in that
    order, one row of values. *)
Definition Insert_SetMap (b : InsertBuilder) (clauses : gmap string any)
    : InsertBuilder :=
  let cols := sort_strings (fst <$> map_to_list clauses) in
  let vals := omap (fun col => clauses !! col) cols in
  {| ib_Into := ib_Into b; ib_Columns := cols; ib_Values := [vals];
     ib_Suffixes := ib_Suffixes b |}.

Definition Insert_Suffix (b : InsertBuilder) (sql : string) : InsertBuilder :=
  {| ib_Into := ib_Into b; ib_Columns := ib_Columns b;
     ib_Values := ib_Values b; ib_Suffixes := ib_Suffixes b ++ [sql] |}.

Definition placeholders (row : list any) : string :=
  "(" ++ String.concat "," ((fun _ => "?") <$> row) ++ ")".

Definition Insert_ToSql (b : InsertBuilder) : result (string * list any) :=
  if String.eqb (ib_Into b) "" then
    Fail (ErrMsg "insert statements must specify a table")
  else
    match ib_Values b with
    | [] => Fail (ErrMsg "insert statements must have at least one set of values or select clause")
    | rows =>
      let head := "INSERT INTO " ++ ib_Into b ++ " " in
      let cols :=
        match ib_Columns b with
        | [] => ""
        | cs => "(" ++ String.concat "," cs ++ ") "
        end in
      let vals := "VALUES " ++ String.concat "," (placeholders <$> rows) in
      let tail :=
        match ib_Suffixes b with
        | [] => ""
        | ss => " " ++ String.concat " " ss
        end in
      Ok ((head ++ cols ++ vals ++ tail)%string, concat rows)
    end.

(** *** UPDATE *)
Record UpdateBuilder : Type := {
  ub_Table : string;
  ub_SetClauses : list (string * any);
  ub_WhereParts : list Sqlizer;
}.

Definition Update (table : string) : UpdateBuilder :=
  {| ub_Table := table; ub_SetClauses := []; ub_WhereParts := [] |}.

Definition Update_Set (b : UpdateBuilder) (column : string) (value : any)
    : UpdateBuilder :=
  {| ub_Table := ub_Table b;
     ub_SetClauses := ub_SetClauses b ++ [(column, value)];
     ub_WhereParts := ub_WhereParts b |}.

(** [UpdateBuilder.SetMap]: one [Set] per key, the keys sorted. *)
Definition Update_SetMap (b : UpdateBuilder) (clauses : gmap string any)
    : UpdateBuilder :=
  foldl (fun b key =>
           match clauses !! key with
           | Some val => Update_Set b key val
           | None => b
           end)
        b (sort_strings (fst <$> map_to_list clauses)).

Definition Update_Where (b : UpdateBuilder) (pred : Sqlizer) : UpdateBuilder :=
  {| ub_Table := ub_Table b; ub_SetClauses := ub_SetClauses b;
     ub_WhereParts := ub_WhereParts b ++ [pred] |}.

Definition Update_ToSql (b : UpdateBuilder) : result (string * list any) :=
  if String.eqb (ub_Table b) "" then
    Fail (ErrMsg "update statements must specify a table")
  else
    match ub_SetClauses b with
    | [] => Fail (ErrMsg "update statements must have at least one Set clause")
    | sets =>
      let setSql := String.concat ", " ((fun c => c.1 ++ " = ?") <$> sets) in
      appendWhere (ub_WhereParts b)
                  ("UPDATE " ++ ub_Table b ++ " SET " ++ setSql)%string
                  (snd <$> sets)
    end.

(** *** SELECT *)
Record SelectBuilder : Type := {
  sb_Columns : list string;
  sb_From : string;
  sb_WhereParts : list Sqlizer;
}.

Definition Select (columns : list string) : SelectBuilder :=
  {| sb_Columns := columns; sb_From := ""; sb_WhereParts := [] |}.

Definition Select_From (b : SelectBuilder) (from : string) : SelectBuilder :=
  {| sb_Columns := sb_Columns b; sb_From := from;
     sb_WhereParts := sb_WhereParts b |}.

Definition Select_Where (b : SelectBuilder) (pred : Sqlizer) : SelectBuilder :=
  {| sb_Columns := sb_Columns b; sb_From := sb_From b;
     sb_WhereParts := sb_WhereParts b ++ [pred] |}.

Definition Select_ToSql (b : SelectBuilder) : result (string * list any) :=
  match sb_Columns b with
  | [] => Fail (ErrMsg "select statements must have at least one result column")
  | cols =>
    let from :=
      if String.eqb (sb_From b) "" then "" else " FROM " ++ sb_From b in
    appendWhere (sb_WhereParts b)
                ("SELECT " ++ String.concat ", " cols ++ from)%string []
  end.

(** *** DELETE *)
Record DeleteBuilder : Type := {
  db_From : string;
  db_WhereParts : list Sqlizer;
}.

Definition Delete (from : string) : DeleteBuilder :=
  {| db_From := from; db_WhereParts := [] |}.

Definition Delete_Where (b : DeleteBuilder) (pred : Sqlizer) : DeleteBuilder :=
  {| db_From := db_From b; db_WhereParts := db_WhereParts b ++ [pred] |}.

Definition Delete_ToSql (b : DeleteBuilder) : result (string * list any) :=
  if String.eqb (db_From b) "" then
    Fail (ErrMsg "delete statements must specify a From table")
  else
    appendWhere (db_WhereParts b) ("DELETE FROM " ++ db_From b)%string [].
End Builder.
Arguments Sqlizer : clear implicits.
Arguments InsertBuilder : clear implicits.
Arguments UpdateBuilder : clear implicits.
Arguments SelectBuilder : clear implicits.
Arguments DeleteBuilder : clear implicits.
End sq.

(** ** sqlx over database/sql: results, cursors, the connection *)

Module sqlx.
Section Driver.
Context {any : Type}.
(** One row as the driver delivers it, before it is scanned. *)
Context {Raw : Type}.

(** [sql.Result]: each accessor reports a value and an error. *)
Record Result : Type := {
  LastInsertId : Z * option error;
  RowsAffected : Z * option error;
}.

(** What a query hands back: the rows the driver will deliver in their
    native order, the error it reports once they are delivered (nil for a
    clean end of data) and the error that closing reports. *)
Record ResultSet : Type := {
  rs_rows : list Raw;
  rs_err : option error;
  rs_closeErr : option error;
}.

(** [sqlx.Rows], the live cursor.  [current] is the row [Next] has loaded;
    [lasterr] is what [Err] reports; [releases] counts how often the
    driver cursor was handed back, [closeCalls] how often the caller
    called [Close]. *)
Record Rows : Type := {
  pending : list Raw;
  current : option Raw;
  terminal : option error;
  lasterr : option error;
  closeErr : option error;
  closed : bool;
  releases : nat;
  closeCalls : nat;
}.

Definition open (rs : ResultSet) : Rows :=
  {| pending := rs_rows rs; current := None; terminal := rs_err rs;
     lasterr := None; closeErr := rs_closeErr rs; closed := false;
     releases := 0; closeCalls := 0 |}.

(** The release itself: idempotent, as [Rows.Close] documents. *)
Definition release (r : Rows) : Rows * option error :=
  if closed r then (r, None)
  else ({| pending := pending r; current := None; terminal := terminal r;
           lasterr := lasterr r; closeErr := closeErr r; closed := true;
           releases := S (releases r); closeCalls := closeCalls r |},
        closeErr r).

(** [rows.Close()]. *)
Definition Rows_Close (r : Rows) : Rows * option error :=
  release {| pending := pending r; current := current r;
             terminal := terminal r; lasterr := lasterr r;
             closeErr := closeErr r; closed := closed r;
             releases := releases r; closeCalls := S (closeCalls r) |}.

(** [rows.Next()]: loads the next row; when there is none it records the
    driver's error and closes the cursor by itself. *)
Definition Rows_Next (r : Rows) : Rows * bool :=
  if closed r then (r, false)
  else
    match pending r with
    | raw :: rest =>
      ({| pending := rest; current := Some raw; terminal := terminal r;
          lasterr := lasterr r; closeErr := closeErr r; closed := false;
          releases := releases r; closeCalls := closeCalls r |}, true)
    | [] =>
      ((release {| pending := []; current := None; terminal := terminal r;
                   lasterr := terminal r; closeErr := closeErr r;
                   closed := false; releases := releases r;
                   closeCalls := closeCalls r |}).1, false)
    end.

(** [rows.Err()]. *)
Definition Rows_Err (r : Rows) : option error := lasterr r.

(** [rows.Scan(dest)] / [rows.StructScan(dest)] with the destination's
    scanner: the destination as the scan leaves it, and the error. *)
Definition Rows_Scan {D : Type} (scan : Raw -> D -> D * option error)
    (r : Rows) (dest : D) : D * option error :=
  if closed r then (dest, Some (ErrMsg "sql: Rows are closed"))
  else
    match current r with
    | None => (dest, Some (ErrMsg "sql: Scan called without calling Next"))
    | Some raw => scan raw dest
    end.

(** [sqlx.Row]: the deferred outcome of a single-row query. *)
Definition Row : Type := result Rows.

(** [Row.Scan] / [Row.StructScan]: a stored query error first; then the
    first row, or the cursor's error, or [sql.ErrNoRows] when there is no
    row; after a successful scan, the error of closing. *)
Definition Row_Scan {D : Type} (scan : Raw -> D -> D * option error)
    (r : Row) (dest : D) : D * option error :=
  match r with
  | Fail err => (dest, Some err)
  | Ok rows =>
    let (rows, more) := Rows_Next rows in
    if more then
      let (dest, err) := Rows_Scan scan rows dest in
      match err with
      | Some err => (dest, Some err)
      | None => (dest, (Rows_Close rows).2)
      end
    else
      match Rows_Err rows with
      | Some err => (dest, Some err)
      | None => (dest, Some ErrNoRows)
      end
  end.

(** [sqlx.ExtContext] over a connection in state [S]: every call may
    change the state of the database behind it. *)
Record ExtContext (St : Type) : Type := {
  Rebind : string -> string;
  ExecContext :
    Context -> string -> list any -> St -> St * result Result;
  queryContext :
    Context -> string -> list any -> St -> St * result ResultSet;
  queryRowContext :
    Context -> string -> list any -> St -> St * result ResultSet;
}.
Arguments Rebind {St}.
Arguments ExecContext {St}.
Arguments queryContext {St}.
Arguments queryRowContext {St}.

(** [db.QueryxContext]: a fresh cursor over the result, or the error. *)
Definition QueryxContext {St} (db : ExtContext St) (ctx : Context)
    (query : string) (args : list any) (s : St) : St * result Rows :=
  let (s, r) := queryContext db ctx query args s in (s, result_map open r).

(** [db.QueryRowxContext]: never fails by itself; the error is kept in
    the [Row]. *)
Definition QueryRowxContext {St} (db : ExtContext St) (ctx : Context)
    (query : string) (args : list any) (s : St) : St * Row :=
  let (s, r) := queryRowContext db ctx query args s in (s, result_map open r).
End Driver.
Arguments Result : clear implicits.
Arguments ResultSet : clear implicits.
Arguments Rows : clear implicits.
Arguments Row : clear implicits.
Arguments ExtContext : clear implicits.
Arguments Rebind {any Raw St}.
Arguments ExecContext {any Raw St}.
Arguments queryContext {any Raw St}.
Arguments queryRowContext {any Raw St}.
End sqlx.

(** ** tagops: reflection over struct tags *)

Module tagops.
(** What the helpers need of a record type [T]: its zero value
    ([var t T]), the two reflection functions of package [tagops] and the
    decoder [StructScan] uses for it.  [ToMap a tag omitEmpty flag] is the
    call [tagops.ToMap(a, tag, omitEmpty, flag)]; the helpers pass the two
    booleans as constants. *)
Class Reflected (any Raw T : Type) : Type := {
  zero : T;
  ToMap : T -> string -> bool -> bool -> gmap string any;
  Tags : T -> string -> list string;
  StructScan : Raw -> T -> T * option error;
}.
End tagops.

(** ** The helpers of sqlhelp.go *)

Import sq sqlx tagops.

(** How [database/sql] converts a driver row into an [int64] destination
    ([Scan(&id)]); it depends on the driver's value types. *)
Class Int64Scanner (Raw : Type) : Type :=
  scanInt64 : Raw -> Z -> Z * option error.

(** What a single run of the sequence function leaves behind: the cursor,
    the state of the caller's loop body, the pairs handed to [yield] in
    order, and whether the [for rows.Next()] loop ran to its end. *)
Record Iteration (Raw T C : Type) : Type := {
  it_rows : Rows Raw;
  it_caller : C;
  it_yielded : list (T * option error);
  it_exhausted : bool;
}.
Arguments it_rows {Raw T C}.
Arguments it_caller {Raw T C}.
Arguments it_yielded {Raw T C}.
Arguments it_exhausted {Raw T C}.

Section Helpers.
Context {any Raw T : Type} `{!Reflected any Raw T} `{!Int64Scanner Raw}.
(** The state of the database behind the connection. *)
Context {St : Type}.
(** The package variable [Tag] (["db"] unless the caller reassigns it). *)
Variable Tag : string.

(** The builder [bld] of [InsertFull]. *)
Definition InsertFull_bld (omitEmpty : bool) (table : string) (a : T)
    : InsertBuilder any :=
  Insert_Suffix
    (Insert_SetMap (sq.Insert table) (ToMap a Tag omitEmpty true))
    "ON CONFLICT DO NOTHING".

(** [InsertFull]. *)
Definition InsertFull (ctx : Context) (db : ExtContext any Raw St)
    (omitEmpty : bool) (table : string) (a : T) (s : St)
    : St * (Z * option error) :=
  let bld := InsertFull_bld omitEmpty table a in
  match Insert_ToSql bld with
  | Fail err => (s, (0, Some err))
  | Ok (stmt, binds) =>
    match ExecContext db ctx (Rebind db stmt) binds s with
    | (s, Fail err) => (s, (0, Some err))
    | (s, Ok res) =>
      match LastInsertId res with
      | (id, Some err) => (s, (id, Some err))
      | (id, None) => (s, (id, None))
      end
    end
  end.

(** [Insert]. *)
Definition Insert (ctx : Context) (db : ExtContext any Raw St)
    (table : string) (a : T) (s : St) : St * (Z * option error) :=
  InsertFull ctx db true table a s.

(** The builder [bld] of [InsertPSQLFull]. *)
Definition InsertPSQLFull_bld (omitEmpty : bool) (table idCol : string)
    (a : T) : InsertBuilder any :=
  Insert_Suffix
    (Insert_SetMap (sq.Insert table) (ToMap a Tag omitEmpty false))
    ("ON CONFLICT DO NOTHING RETURNING " ++ idCol).

(** [InsertPSQLFull]. *)
Definition InsertPSQLFull (ctx : Context) (db : ExtContext any Raw St)
    (omitEmpty : bool) (table idCol : string) (a : T) (s : St)
    : St * (Z * option error) :=
  let bld := InsertPSQLFull_bld omitEmpty table idCol a in
  match Insert_ToSql bld with
  | Fail err => (s, (0, Some err))
  | Ok (stmt, binds) =>
    let id := 0 in
    let (s, row) := QueryRowxContext db ctx (Rebind db stmt) binds s in
    match Row_Scan scanInt64 row id with
    | (_, Some err) => (s, (0, Some err))
    | (id, None) => (s, (id, None))
    end
  end.

(** [InsertPSQL]. *)
Definition InsertPSQL (ctx : Context) (db : ExtContext any Raw St)
    (table idCol : string) (a : T) (s : St) : St * (Z * option error) :=
  InsertPSQLFull ctx db true table idCol a s.

(** The builder [bld] of [SelectRow] and of [Select]: the columns are
    the tags of a zero record. *)
Definition Select_bld (table : string) (where_ : Sqlizer any)
    : SelectBuilder any :=
  let t : T := zero in
  Select_Where (Select_From (sq.Select (Tags t Tag)) table) where_.

(** [SelectRow]: [None] is the nil pointer. *)
Definition SelectRow (ctx : Context) (db : ExtContext any Raw St)
    (table : string) (where_ : Sqlizer any) (s : St)
    : St * (option T * option error) :=
  let res : T := zero in
  let bld := Select_bld table where_ in
  match Select_ToSql bld with
  | Fail err => (s, (None, Some err))
  | Ok (query, args) =>
    let (s, row) := QueryRowxContext db ctx (Rebind db query) args s in
    match Row_Scan StructScan row res with
    | (_, Some err) => (s, (None, Some err))
    | (res, None) => (s, (Some res, None))
    end
  end.

(** The builder [bld] of [Update]. *)
Definition Update_bld (table : string) (a : T) (where_ : Sqlizer any)
    : UpdateBuilder any :=
  Update_Where
    (Update_SetMap (sq.Update table) (ToMap a Tag true false))
    where_.

(** [Update]. *)
Definition Update (ctx : Context) (db : ExtContext any Raw St)
    (table : string) (a : T) (where_ : Sqlizer any) (s : St)
    : St * (Z * option error) :=
  let bld := Update_bld table a where_ in
  match Update_ToSql bld with
  | Fail err => (s, (0, Some err))
  | Ok (query, args) =>
    match ExecContext db ctx (Rebind db query) args s with
    | (s, Fail err) => (s, (0, Some err))
    | (s, Ok res) =>
      match RowsAffected res with
      | (raff, Some err) => (s, (raff, Some err))
      | (raff, err) => (s, (raff, err))
      end
    end
  end.

(** [JustErr]. *)
Definition JustErr {A : Type} (_ : A) (err : option error) : option error :=
  err.

(** [Delete]. *)
Definition Delete (ctx : Context) (db : ExtContext any Raw St)
    (table : string) (where_ : Sqlizer any) (s : St) : St * option error :=
  let bld := Delete_Where (sq.Delete table) where_ in
  match Delete_ToSql bld with
  | Fail err => (s, Some err)
  | Ok (query, args) =>
    match ExecContext db ctx (Rebind db query) args s with
    | (s, Fail err) => (s, Some err)
    | (s, Ok _) => (s, None)
    end
  end.

(** The builder [bld] of [Exists]. *)
Definition Exists_bld (table : string) (where_ : Sqlizer any)
    : SelectBuilder any :=
  Select_Where (Select_From (sq.Select ["1 as X"]) table) where_.

(** [Exists]. *)
Definition Exists (ctx : Context) (db : ExtContext any Raw St)
    (table : string) (where_ : Sqlizer any) (s : St)
    : St * (bool * option error) :=
  let bld := Exists_bld table where_ in
  match Select_ToSql bld with
  | Fail err => (s, (false, Some err))
  | Ok (query, args) =>
    let exists_ := 0 in
    let (s, row) := QueryRowxContext db ctx (Rebind db query) args s in
    match Row_Scan scanInt64 row exists_ with
    | (_, Some err) =>
      if errors_Is err ErrNoRows then (s, (false, None))
      else (s, (false, Some err))
    | (exists_, None) => (s, (exists_ =? 1, None))
    end
  end.

(** *** [Select] and the sequence it returns *)

(** The caller's side of [iter.Seq2]: the body of the caller's [range]
    loop, with the caller's own state [C]; [false] stops the iteration. *)
Context {C : Type}.

(** [defer rows.Close()]: runs on every way out of the function; the
    error of closing is dropped. *)
Definition defer_Close (it : Iteration Raw T C) : Iteration Raw T C :=
  {| it_rows := (Rows_Close (it_rows it)).1; it_caller := it_caller it;
     it_yielded := it_yielded it; it_exhausted := it_exhausted it |}.

(** The body of the sequence function below its [defer]: the
    [for rows.Next()] loop and the check of [rows.Err()] after it.
    [seen] is the list of pairs handed to [yield] so far. *)
Equations iterBody (yield : C -> T -> option error -> C * bool)
    (rows : Rows Raw) (c : C) (seen : list (T * option error))
    : Iteration Raw T C by wf (length (pending rows)) lt :=
  iterBody yield rows c seen with Logic.inspect (Rows_Next rows) := {
    | @exist _ _ (rows', true) Hnext with Rows_Scan StructScan rows' zero := {
      | (t, err) with yield c t err := {
        | (c', true) => iterBody yield rows' c' (seen ++ [(t, err)])
        | (c', false) =>
          {| it_rows := rows'; it_caller := c';
             it_yielded := seen ++ [(t, err)]; it_exhausted := false |} } }
    | @exist _ _ (rows', false) Hnext with Rows_Err rows' := {
      | Some err =>
        let t2 : T := zero in
        {| it_rows := rows'; it_caller := (yield c t2 (Some err)).1;
           it_yielded := seen ++ [(t2, Some err)]; it_exhausted := true |}
      | None =>
        {| it_rows := rows'; it_caller := c; it_yielded := seen;
           it_exhausted := true |} } }.
Next Obligation.
  intros _ rows rows' _ _ Hnext _ _ _ _. simpl in Hnext.
  revert Hnext. unfold Rows_Next. destruct (closed rows); [discriminate|].
  destruct (pending rows) as [|raw rest]; [unfold release; simpl; discriminate|].
  intros [= <-]. simpl. lia.
Qed.

(** The function [Select] returns ([iterFunc]): it closes over [rows]
    alone, so the sequence is the cursor it will drive. *)
Record Seq2 : Type := { seq_rows : Rows Raw }.

Definition iterFunc (seq : Seq2)
    (yield : C -> T -> option error -> C * bool) (c : C) : Iteration Raw T C :=
  defer_Close (iterBody yield (seq_rows seq) c []).

(** What decoding a row into a fresh record yields: the pair the loop
    hands to [yield] for that row. *)
Definition decoded (raw : Raw) : T * option error := StructScan raw zero.

(** The pair that follows the rows when the cursor ends with an error. *)
Definition final_pair (terminal : option error) : list (T * option error) :=
  match terminal with
  | Some err => [(zero, Some err)]
  | None => []
  end.

(** Everything a cursor has to offer, in order: each row decoded into a
    fresh record, then the final pair if the cursor ends with an error. *)
Definition whole_sequence (rows : list Raw) (terminal : option error)
    : list (T * option error) :=
  ((decoded <$> rows) ++ final_pair terminal)%list.

(** The body of the [range] loop of [Collect2], as a [yield] function: the
    caller's state is the pair the function would return at this point;
    the [return] inside the loop stops the iteration. *)
Definition Collect2_body (st : list T * option error) (t : T)
    (err : option error) : (list T * option error) * bool :=
  match err with
  | Some err => (([], Some err), false)
  | None => ((st.1 ++ [t])%list, None, true)
  end.

(** [Select]: [None] is the nil sequence. *)
Definition Select (ctx : Context) (db : ExtContext any Raw St)
    (table : string) (where_ : Sqlizer any) (s : St)
    : St * (option Seq2 * option error) :=
  let bld := Select_bld table where_ in
  match Select_ToSql bld with
  | Fail err => (s, (None, Some err))
  | Ok (query, args) =>
    match QueryxContext db ctx (Rebind db query) args s with
    | (s, Fail err) => (s, (None, Some err))
    | (s, Ok rows) => (s, (Some {| seq_rows := rows |}, None))
    end
  end.
End Helpers.

(** [Collect2]: drives the sequence with its loop body, starting from the
    nil slice; the result is the state of the loop when the iteration
    ends. *)
Definition Collect2_run {any Raw T : Type} `{!Reflected any Raw T}
    (seq : Seq2 (Raw := Raw))
    : Iteration Raw T (list T * option error) :=
  iterFunc seq Collect2_body ([], None).

Definition Collect2 {any Raw T : Type} `{!Reflected any Raw T}
    (seq : Seq2 (Raw := Raw)) : list T * option error :=
  it_caller (Collect2_run seq).

(** ** The helpers of helpers.go *)

(** What the by-id helpers need of Go values and of squirrel: an [int64]
    and a [string] as values of [any], and the predicate [sq.Eq], a map
    from column to value that squirrel renders itself. *)
Class Predicates (any : Type) : Type := {
  ofInt64 : Z -> any;
  ofString : string -> any;
  Eq : gmap string any -> Sqlizer any;
}.

Section ByID.
Context {any Raw T : Type} `{!Reflected any Raw T} `{!Int64Scanner Raw}.
Context `{!Predicates any}.
Context {St : Type}.
Variable Tag : string.

(** [SelectRowByID]. *)
Definition SelectRowByID (ctx : Context) (db : ExtContext any Raw St)
    (table : string) (id : Z) (s : St) : St * (option T * option error) :=
  SelectRow Tag ctx db table (Eq {[ "id" := ofInt64 id ]}) s.

(** [SelectRowByIntegrationID]. *)
Definition SelectRowByIntegrationID (ctx : Context)
    (db : ExtContext any Raw St) (table : string) (integrationID : string)
    (s : St) : St * (option T * option error) :=
  SelectRow Tag ctx db table
    (Eq {[ "integration_id" := ofString integrationID ]}) s.

(** [DeleteByID]. *)
Definition DeleteByID (ctx : Context) (db : ExtContext any Raw St)
    (table : string) (id : any) (s : St) : St * option error :=
  Delete ctx db table (Eq {[ "id" := id ]}) s.

(** [UpdateByID]. *)
Definition UpdateByID (ctx : Context) (db : ExtContext any Raw St)
    (table : string) (id : any) (a : T) (s : St) : St * (Z * option error) :=
  Update Tag ctx db table a (Eq {[ "id" := id ]}) s.

(** [ExistsByID]. *)
Definition ExistsByID (ctx : Context) (db : ExtContext any Raw St)
    (table : string) (id : any) (s : St) : St * (bool * option error) :=
  Exists ctx db table (Eq {[ "id" := id ]}) s.
End ByID.

(** ** postgres.go: the search path of a connection string *)

(** [strings.HasPrefix]. *)
Fixpoint HasPrefix (s prefix : string) : bool :=
  match prefix, s with
  | EmptyString, _ => true
  | String p prefix, String c s => Ascii.eqb p c && HasPrefix s prefix
  | String _ _, EmptyString => false
  end.

(** [strings.Contains]: [substr] starts at some position of [s]. *)
Fixpoint Contains (s substr : string) : bool :=
  HasPrefix s substr ||
  match s with
  | EmptyString => false
  | String _ s => Contains s substr
  end.

(** [strings.Join]. *)
Definition Join (elems : list string) (sep : string) : string :=
  String.concat sep elems.

(** [url.Values]: every key has the list of its values, in the order they
    were added. *)
Definition Values_Add (v : gmap string (list string)) (key value : string)
    : gmap string (list string) :=
  <[ key := (default [] (v !! key) ++ [value])%list ]> v.

(** Package [net/url], as far as [AddSearchPath] uses it: parsing, the
    parsed query of a URL, assignment to its [RawQuery], printing, and the
    encoding of values. *)
Class NetURL (URL : Type) : Type := {
  url_Parse : string -> result URL;
  URL_Query : URL -> gmap string (list string);
  URL_setRawQuery : URL -> string -> URL;
  URL_String : URL -> string;
  Values_Encode : gmap string (list string) -> string;
}.

(** [AddSearchPath]. *)
Definition AddSearchPath {URL : Type} `{!NetURL URL} (dsn : string)
    (schema : list string) : string :=
  let searchPath := "search_path=" ++ Join schema "," in
  match url_Parse dsn with
  | Fail _ => dsn ++ " " ++ searchPath
  | Ok uri =>
    if negb (Contains dsn "://") then dsn ++ " " ++ searchPath
    else
      let vals := URL_Query uri in
      let vals := Values_Add vals "options" ("--" ++ searchPath) in
      let uri := URL_setRawQuery uri (Values_Encode vals) in
      URL_String uri
  end.

(** ** A concrete record type, driver and connection

    Used to run the helpers on concrete inputs. *)

Module Mock.
(** Driver values. *)
Inductive val : Type :=
| VInt (z : Z)
| VStr (s : string)
| VBool (b : bool).

Definition Raw : Type := list val.

(** [type Item struct { ID int64 `db:"id"`; Name string `db:"name,omitempty"` }] *)
Record Item : Type := { ID : Z; Name : string }.

Definition is_zero (v : val) : bool :=
  match v with
  | VInt z => z =? 0
  | VStr s => String.eqb s ""
  | VBool b => negb b
  end.

(** A reflected field: column name, the omit-if-empty flag of its tag,
    whether the column is the record's key, and the current value. *)
Record Field : Type := {
  f_column : string;
  f_omitempty : bool;
  f_idlike : bool;
  f_value : val;
}.

Definition fields (a : Item) : list Field :=
  [ {| f_column := "id"; f_omitempty := false; f_idlike := true;
       f_value := VInt (ID a) |};
    {| f_column := "name"; f_omitempty := true; f_idlike := false;
       f_value := VStr (Name a) |} ].

(** Modelled from the spec: the tag reflector (package [tagops], not part
    of the repository) as section 4.1 describes [Bindings]: with
    [omitEmpty] a field tagged omit-if-empty is dropped while it holds its
    zero value; without [includeIdLikeFields] the key column is dropped. *)
Definition Bindings (fs : list Field) (omitEmpty includeIdLikeFields : bool)
    : gmap string val :=
  list_to_map
    ((fun f => (f_column f, f_value f)) <$>
     filter (fun f =>
               Is_true (negb (omitEmpty && f_omitempty f && is_zero (f_value f))
                        && (includeIdLikeFields || negb (f_idlike f))))
            fs).

(** [Rows.Scan] assigns the destinations column by column and stops at
    the first value it cannot convert: what was assigned stays. *)
Definition scanItem (raw : Raw) (dest : Item) : Item * option error :=
  match raw with
  | [VInt id; VStr name] => ({| ID := id; Name := name |}, None)
  | VInt id :: _ =>
    ({| ID := id; Name := Name dest |},
     Some (ErrMsg "sql: Scan error on column index 1"))
  | _ => (dest, Some (ErrMsg "sql: Scan error on column index 0"))
  end.

#[global] Instance Item_Reflected : Reflected val Raw Item := {|
  zero := {| ID := 0; Name := "" |};
  ToMap a _ omitEmpty flag := Bindings (fields a) omitEmpty flag;
  Tags _ _ := f_column <$> fields {| ID := 0; Name := "" |};
  StructScan := scanItem;
|}.

#[global] Instance val_Int64Scanner : Int64Scanner Raw :=
  fun raw dest =>
    match raw with
    | [VInt z] => (z, None)
    | _ => (dest, Some (ErrMsg "sql: Scan error on column index 0"))
    end.

(** The connection keeps a journal of the statements it was given and
    answers each kind of call with a canned response. *)
Inductive Call : Type :=
| CExec (query : string) (args : list val)
| CQuery (query : string) (args : list val)
| CQueryRow (query : string) (args : list val).

Definition conn (exec : result (Result))
    (query queryRow : result (ResultSet Raw))
    : ExtContext val Raw (list Call) :=
  {| Rebind q := q;
     ExecContext _ q args log := ((log ++ [CExec q args])%list, exec);
     queryContext _ q args log := ((log ++ [CQuery q args])%list, query);
     queryRowContext _ q args log := ((log ++ [CQueryRow q args])%list, queryRow) |}.

Definition rowsOf (rows : list Raw) (err : option error) : ResultSet Raw :=
  {| rs_rows := rows; rs_err := err; rs_closeErr := None |}.

(** [sq.Eq{"id": id}]. *)
Definition EqID (id : Z) : Sqlizer val := {| ToSql := Ok ("id = ?", [VInt id]) |}.

(** A caller that collects records and stops after [n] pairs:
    state = (pairs still wanted, records kept). *)
Definition take (st : nat * list Item) (t : Item) (err : option error)
    : (nat * list Item) * bool :=
  match st with
  | (n, kept) =>
    let kept := match err with None => (kept ++ [t])%list | Some _ => kept end in
    ((pred n, kept), negb (Nat.leb n 1))
  end.

(** A caller that never stops, like the loop of [TestSelect]. *)
Definition keep (kept : list Item) (t : Item) (err : option error)
    : list Item * bool :=
  match err with
  | None => ((kept ++ [t])%list, true)
  | Some _ => (kept, true)
  end.

(** [sq.Eq] over driver values: one [column = ?] per key, the keys sorted,
    joined by [AND]; the empty map is the always-true predicate. *)
#[global] Instance val_Predicates : Predicates val := {|
  ofInt64 := VInt;
  ofString := VStr;
  Eq m :=
    let keys := sort_strings (fst <$> map_to_list m) in
    {| ToSql :=
         match keys with
         | [] => Ok ("(1=1)", [])
         | _ => Ok (String.concat " AND " ((fun k => k ++ " = ?") <$> keys),
                    omap (fun k => m !! k) keys)
         end |};
|}.

(** A URL cut at its first question mark: what is before it, and the
    query as values (one value per key here).  Of the query syntax only
    [k=v] pairs separated by ampersands are read, and nothing is escaped. *)
Record Url : Type := { u_base : string; u_query : string }.

Fixpoint splitAt (sep : Ascii.ascii) (s : string) : string * option string :=
  match s with
  | EmptyString => (EmptyString, None)
  | String c s =>
    if Ascii.eqb c sep then (EmptyString, Some s)
    else let (l, r) := splitAt sep s in (String c l, r)
  end.

Fixpoint pairsOf (fuel : nat) (q : string) : list (string * string) :=
  match fuel with
  | O => []
  | S fuel =>
    if String.eqb q "" then []
    else
      let (kv, rest) := splitAt "&"%char q in
      let (k, v) := splitAt "="%char kv in
      (k, default "" v) ::
      match rest with
      | Some rest => pairsOf fuel rest
      | None => []
      end
  end.

Definition parseQuery (q : string) : gmap string (list string) :=
  foldl (fun m kv => Values_Add m kv.1 kv.2) ∅ (pairsOf (String.length q) q).

Definition encodeValues (v : gmap string (list string)) : string :=
  String.concat "&"
    (mjoin ((fun kvs : string * list string =>
               (fun x => kvs.1 ++ "=" ++ x) <$> kvs.2) <$>
            merge_sort (fun a b => str_le a.1 b.1) (map_to_list v))).

#[global] Instance Url_NetURL : NetURL Url := {|
  url_Parse dsn :=
    if Contains dsn " " then Fail (ErrMsg "invalid character in host name")
    else
      let (base, q) := splitAt "?"%char dsn in
      Ok {| u_base := base; u_query := default "" q |};
  URL_Query u := parseQuery (u_query u);
  URL_setRawQuery u q := {| u_base := u_base u; u_query := q |};
  URL_String u :=
    if String.eqb (u_query u) "" then u_base u
    else u_base u ++ "?" ++ u_query u;
  Values_Encode := encodeValues;
|}.
End Mock.


(** ** Sample inputs *)

Module Sample.
Import Mock.

Definition item : Item := {| ID := 1; Name := "a" |}.

(** A result whose accessors fail but still report a number. *)
Definition badResult : Result :=
  {| LastInsertId := (7, Some (ErrMsg "no last insert id"));
     RowsAffected := (3, Some (ErrMsg "no rows affected")) |}.

Definition down : error := ErrMsg "connection refused".

(** Three rows; the second has a value its column cannot take. *)
Definition threeRows : list Raw :=
  [ [VInt 1; VStr "a"]; [VInt 2; VBool true]; [VInt 3; VStr "c"] ].

Definition cursor (rows : list Raw) (err : option error) : Seq2 (Raw := Raw) :=
  {| seq_rows := open (rowsOf rows err) |}.

(** Connections that answer one kind of call and refuse the others. *)
Definition execConn (r : result Result) : ExtContext val Raw (list Call) :=
  conn r (Fail down) (Fail down).

Definition queryConn (r : result (ResultSet Raw))
    : ExtContext val Raw (list Call) :=
  conn (Fail down) r (Fail down).

Definition rowConn (r : result (ResultSet Raw))
    : ExtContext val Raw (list Call) :=
  conn (Fail down) (Fail down) r.
(** Two rows that decode. *)
Definition goodRows : list Raw := [ [VInt 1; VStr "a"]; [VInt 3; VStr "c"] ].

(** A predicate that cannot be rendered. *)
Definition badPred : Sqlizer val := {| ToSql := Fail (ErrMsg "bad predicate") |}.

(** A record with nothing to write: every field is empty or is the key. *)
Definition blank : Item := {| ID := 0; Name := "" |}.

(** An error that wraps [sql.ErrNoRows]. *)
Definition wrappedNoRows : error := ErrWrap "lookup failed" ErrNoRows.

(** Connection strings in the two forms. *)
Definition keywordDsn : string := "host=db.local user=app".

Definition urlDsn : string :=
  "postgres://app@db.local/main?sslmode=disable&options=-c%20x".
End Sample.

(** * Properties *)

(** ** The builder: what [SetMap] puts into a statement *)

Section SetMapFacts.
Context {any : Type}.
Implicit Types (m : gmap string any) (ks : list string).

Lemma sort_strings_perm ks : sort_strings ks ≡ₚ ks.
Proof. apply merge_sort_Permutation. Qed.

Lemma bindings_of_keys m :
  bindings_of m (fst <$> map_to_list m) = map_to_list m.
Proof.
  unfold bindings_of.
  assert (Hin : forall kv, kv ∈ map_to_list m -> m !! kv.1 = Some kv.2).
  { intros [k v] Hkv. by apply elem_of_map_to_list. }
  induction (map_to_list m) as [|[k v] l IH]; [done|].
  cbn. pose proof (Hin (k, v) ltac:(left)) as Hk. cbn in Hk.
  rewrite Hk. cbn. f_equal.
  apply IH. intros kv Hkv. apply Hin. by right.
Qed.

Lemma bindings_of_sorted_perm m :
  bindings_of m (sort_strings (fst <$> map_to_list m)) ≡ₚ map_to_list m.
Proof.
  rewrite <- (bindings_of_keys m) at 2. unfold bindings_of.
  by rewrite sort_strings_perm.
Qed.

Lemma bindings_of_fst m ks :
  (forall k, k ∈ ks -> is_Some (m !! k)) -> (bindings_of m ks).*1 = ks.
Proof.
  induction ks as [|k ks IH]; intros Hks; [done|].
  unfold bindings_of. cbn. destruct (Hks k) as [v Hv]; [left|].
  rewrite Hv. cbn. f_equal. apply IH. intros k' Hk'. apply Hks. by right.
Qed.

Lemma sorted_keys_present m k :
  k ∈ sort_strings (fst <$> map_to_list m) -> is_Some (m !! k).
Proof.
  rewrite sort_strings_perm. intros ([k' v] & -> & Hkv)%list_elem_of_fmap.
  exists v. by apply elem_of_map_to_list.
Qed.

Lemma Update_SetMap_clauses (b : UpdateBuilder any) m ks :
  ub_SetClauses
    (foldl (fun b key =>
              match m !! key with
              | Some val => Update_Set b key val
              | None => b
              end) b ks)
  = (ub_SetClauses b ++ bindings_of m ks)%list.
Proof.
  revert b. induction ks as [|k ks IH]; intros b; cbn.
  - by rewrite app_nil_r.
  - rewrite IH. unfold bindings_of. cbn.
    destruct (m !! k); cbn; [|done]. by rewrite <- app_assoc.
Qed.
End SetMapFacts.

Section UpdateFacts.
Context {any Raw T : Type} `{!Reflected any Raw T}.
Variable Tag : string.

Lemma Update_bld_clauses (table : string) (a : T) (where_ : Sqlizer any) :
  ub_SetClauses (Update_bld Tag table a where_)
  = bindings_of (ToMap a Tag true false)
      (sort_strings (fst <$> map_to_list (ToMap a Tag true false))).
Proof.
  unfold Update_bld, Update_Where, Update_SetMap. cbn.
  by rewrite Update_SetMap_clauses.
Qed.

End UpdateFacts.


(** ** Single-row queries: [Exists], [SelectRow], [InsertPSQLFull] *)

Section RowFacts.
Context {Raw : Type}.

(** A single-row query that matched nothing scans to [sql.ErrNoRows],
    whatever the destination. *)
Lemma Row_Scan_no_rows {D : Type} (scan : Raw -> D -> D * option error)
    (rs : ResultSet Raw) (dest : D) :
  rs_rows rs = [] -> rs_err rs = None ->
  Row_Scan scan (Ok (open rs)) dest = (dest, Some ErrNoRows).
Proof.
  intros Hrows Herr. unfold Row_Scan, Rows_Next, open, release, Rows_Err.
  cbn. rewrite Hrows. cbn. by rewrite Herr.
Qed.

(** A query that failed scans to its own error. *)
Lemma Row_Scan_query_error {D : Type} (scan : Raw -> D -> D * option error)
    (err : error) (dest : D) :
  Row_Scan scan (Fail err) dest = (dest, Some err).
Proof. reflexivity. Qed.

(** A first row that does not decode scans to the decoder's error. *)
Lemma Row_Scan_decode_error {D : Type} (scan : Raw -> D -> D * option error)
    (rs : ResultSet Raw) (raw : Raw) (rest : list Raw) (dest d : D)
    (err : error) :
  rs_rows rs = raw :: rest -> scan raw dest = (d, Some err) ->
  Row_Scan scan (Ok (open rs)) dest = (d, Some err).
Proof.
  intros Hrows Hscan. unfold Row_Scan, Rows_Next, open, Rows_Scan.
  cbn. rewrite Hrows. cbn. by rewrite Hscan.
Qed.

(** A first row that decodes, on a cursor that closes cleanly. *)
Lemma Row_Scan_decoded {D : Type} (scan : Raw -> D -> D * option error)
    (rs : ResultSet Raw) (raw : Raw) (rest : list Raw) (dest d : D) :
  rs_rows rs = raw :: rest -> scan raw dest = (d, None) ->
  Row_Scan scan (Ok (open rs)) dest = (d, rs_closeErr rs).
Proof.
  intros Hrows Hscan. unfold Row_Scan, Rows_Next, open, Rows_Scan.
  cbn. rewrite Hrows. cbn. by rewrite Hscan.
Qed.
End RowFacts.

Section ExecutorFacts.
Context {any Raw T : Type} `{!Reflected any Raw T} `{!Int64Scanner Raw}.
Context {St : Type}.
Variable Tag : string.
Implicit Types (ctx : Context) (db : ExtContext any Raw St) (s : St).
Implicit Types (table : string).

(** C2 (as the code has it): [Exists] reads the row it gets.  When the
    single-row query yields a row that decodes without error to the
    integer [flag], [Exists] returns [(flag == 1, nil)]: true for the
    value the projection asks for, false for any other content. *)
Theorem Exists_reads_the_flag ctx db table (where_ : Sqlizer any) s
    (query : string) (args : list any) (s' : St) (row : Row Raw) (flag : Z) :
  Select_ToSql (Exists_bld table where_) = Ok (query, args) ->
  QueryRowxContext db ctx (Rebind db query) args s = (s', row) ->
  Row_Scan scanInt64 row 0 = (flag, None) ->
  Exists ctx db table where_ s = (s', (flag =? 1, None)).
Proof.
  intros Hbuild Hquery Hscan. unfold Exists.
  rewrite Hbuild. cbv zeta. rewrite Hquery, Hscan. reflexivity.
Qed.


(** C6: once the statement is built and sent, [SelectRow] returns the nil
    record with [sql.ErrNoRows] when no row matched, and the nil record
    with the scan error whenever the query or the decoding failed; it
    never returns a record together with an error. *)
Theorem SelectRow_fails_without_record
    ctx db table (where_ : Sqlizer any) s
    (query : string) (args : list any) (s' : St)
    (r : result (ResultSet Raw)) :
  Select_ToSql (Select_bld (T := T) Tag table where_) = Ok (query, args) ->
  queryRowContext db ctx (Rebind db query) args s = (s', r) ->
  (forall rs, r = Ok rs -> rs_rows rs = [] -> rs_err rs = None ->
     SelectRow (T := T) Tag ctx db table where_ s
     = (s', (None, Some ErrNoRows))) /\
  (forall t err,
     Row_Scan StructScan (result_map open r) (zero (T := T)) = (t, Some err) ->
     SelectRow (T := T) Tag ctx db table where_ s = (s', (None, Some err))) /\
  (forall t,
     Row_Scan StructScan (result_map open r) (zero (T := T)) = (t, None) ->
     SelectRow (T := T) Tag ctx db table where_ s = (s', (Some t, None))).
Proof.
  intros Hbuild Hquery.
  assert (Hrow : QueryRowxContext db ctx (Rebind db query) args s
                 = (s', result_map open r)).
  { unfold QueryRowxContext. by rewrite Hquery. }
  split; [|split].
  - intros rs -> Hrows Herr. unfold SelectRow.
    rewrite Hbuild. cbv zeta. rewrite Hrow. cbn [result_map].
    rewrite Row_Scan_no_rows by done. reflexivity.
  - intros t err Hscan. unfold SelectRow.
    rewrite Hbuild. cbv zeta. rewrite Hrow, Hscan. reflexivity.
  - intros t Hscan. unfold SelectRow.
    rewrite Hbuild. cbv zeta. rewrite Hrow, Hscan. reflexivity.
Qed.
End ExecutorFacts.

(** ** Inserts, updates and the eager part of [Select] *)

Lemma string_app_assoc (a b c : string) :
  ((a ++ b) ++ c)%string = (a ++ (b ++ c))%string.
Proof.
  induction a as [|ch a IH]; [done|].
  change (String ch ((a ++ b) ++ c) = String ch (a ++ (b ++ c)))%string.
  by rewrite IH.
Qed.

Lemma string_app_regroup (a b c d : string) :
  (a ++ b ++ c ++ d)%string = ((a ++ b ++ c) ++ d)%string.
Proof. by rewrite !string_app_assoc. Qed.

Lemma zip_lookups {any : Type} (m : gmap string any) (ks : list string) :
  (forall k, k ∈ ks -> is_Some (m !! k)) ->
  zip ks (omap (fun k => m !! k) ks) = bindings_of m ks.
Proof.
  unfold bindings_of. induction ks as [|k ks IH]; intros Hks; [done|].
  cbn. destruct (Hks k) as [v Hv]; [left|]. rewrite Hv. cbn. f_equal.
  apply IH. intros k' Hk'. apply Hks. by right.
Qed.

Section WriteFacts.
Context {any Raw T : Type} `{!Reflected any Raw T} `{!Int64Scanner Raw}.
Context {St : Type}.
Variable Tag : string.
Implicit Types (ctx : Context) (db : ExtContext any Raw St) (s : St).
Implicit Types (table idCol : string) (a : T).

(** The statement [InsertPSQLFull] builds, for a table that has a name:
    its text ends in the RETURNING suffix and its arguments are the
    values of the sorted columns. *)
Lemma InsertPSQLFull_bld_ToSql (omitEmpty : bool) table idCol a :
  table <> "" ->
  let m := ToMap a Tag omitEmpty false in
  let cols := sort_strings (fst <$> map_to_list m) in
  exists body : string,
    Insert_ToSql (InsertPSQLFull_bld Tag omitEmpty table idCol a)
    = Ok ((body ++ " ON CONFLICT DO NOTHING RETURNING " ++ idCol)%string,
          omap (fun col => m !! col) cols).
Proof.
  intros Htable m cols. unfold Insert_ToSql, InsertPSQLFull_bld. cbn.
  destruct (String.eqb_spec table "") as [->|_]; [done|].
  rewrite app_nil_r. eexists. rewrite string_app_regroup. reflexivity.
Qed.

(** C8: [InsertPSQLFull] takes its columns and values from
    [ToMap(a, Tag, omitEmpty, false)], ends the statement with
    [ON CONFLICT DO NOTHING RETURNING idCol], sends it as one single-row
    query and returns the id scanned from the row; when the scan reports
    an error (of the query, of the cursor or of the decoding) it returns
    0 with that error.  [InsertPSQL] is the same with [omitEmpty] on. *)
Theorem InsertPSQLFull_returning_id
    ctx db (omitEmpty : bool) table idCol a s :
  table <> "" ->
  let m := ToMap a Tag omitEmpty false in
  let bld := InsertPSQLFull_bld Tag omitEmpty table idCol a in
  zip (ib_Columns bld) (concat (ib_Values bld)) ≡ₚ map_to_list m /\
  ib_Suffixes bld = ["ON CONFLICT DO NOTHING RETURNING " ++ idCol] /\
  InsertPSQL Tag ctx db table idCol a s
  = InsertPSQLFull Tag ctx db true table idCol a s /\
  exists (body : string) (binds : list any),
    let stmt := (body ++ " ON CONFLICT DO NOTHING RETURNING " ++ idCol)%string in
    Insert_ToSql bld = Ok (stmt, binds) /\
    binds = concat (ib_Values bld) /\
    forall (s' : St) (row : Row Raw),
      QueryRowxContext db ctx (Rebind db stmt) binds s = (s', row) ->
      (forall id, Row_Scan scanInt64 row 0 = (id, None) ->
         InsertPSQLFull Tag ctx db omitEmpty table idCol a s
         = (s', (id, None))) /\
      (forall id err, Row_Scan scanInt64 row 0 = (id, Some err) ->
         InsertPSQLFull Tag ctx db omitEmpty table idCol a s
         = (s', (0, Some err))).
Proof.
  intros Htable m bld.
  destruct (InsertPSQLFull_bld_ToSql omitEmpty table idCol a Htable)
    as [body Hbuild].
  fold m in Hbuild. fold bld in Hbuild.
  assert (Hvals : concat (ib_Values bld)
                  = omap (fun col => m !! col)
                      (sort_strings (fst <$> map_to_list m))).
  { subst bld. unfold InsertPSQLFull_bld. cbn. by rewrite app_nil_r. }
  split; [|split; [|split]].
  - rewrite Hvals. subst bld. unfold InsertPSQLFull_bld. cbn. fold m.
    rewrite zip_lookups by apply sorted_keys_present.
    apply bindings_of_sorted_perm.
  - reflexivity.
  - reflexivity.
  - exists body, (concat (ib_Values bld)). cbv zeta.
    rewrite Hvals. split; [done|]. split; [done|].
    intros s' row Hquery. split.
    + intros id Hscan. unfold InsertPSQLFull. fold bld.
      rewrite Hbuild. cbv zeta. rewrite Hquery, Hscan. reflexivity.
    + intros id err Hscan. unfold InsertPSQLFull. fold bld.
      rewrite Hbuild. cbv zeta. rewrite Hquery, Hscan. reflexivity.
Qed.

(** C10: when the statement was executed and only the accessor of the
    result fails, the number the accessor reported is returned with the
    error: [InsertFull] returns the id and error of [LastInsertId],
    [Update] the count and error of [RowsAffected]. *)
Theorem accessor_error_keeps_reported_value
    ctx db (omitEmpty : bool) table a (where_ : Sqlizer any) s :
  (forall (stmt : string) (binds : list any) (s' : St) (res : Result)
          (id : Z) (err : error),
     Insert_ToSql (InsertFull_bld Tag omitEmpty table a) = Ok (stmt, binds) ->
     ExecContext db ctx (Rebind db stmt) binds s = (s', Ok res) ->
     LastInsertId res = (id, Some err) ->
     InsertFull Tag ctx db omitEmpty table a s = (s', (id, Some err))) /\
  (forall (query : string) (args : list any) (s' : St) (res : Result)
          (raff : Z) (err : error),
     Update_ToSql (Update_bld Tag table a where_) = Ok (query, args) ->
     ExecContext db ctx (Rebind db query) args s = (s', Ok res) ->
     RowsAffected res = (raff, Some err) ->
     Update Tag ctx db table a where_ s = (s', (raff, Some err))).
Proof.
  split.
  - intros stmt binds s' res id err Hbuild Hexec Hid. unfold InsertFull.
    rewrite Hbuild. cbv zeta. rewrite Hexec, Hid. reflexivity.
  - intros query args s' res raff err Hbuild Hexec Hraff. unfold Update.
    rewrite Hbuild. cbv zeta. rewrite Hexec, Hraff. reflexivity.
Qed.

(** C9: when the statement cannot be built, or the query fails when it
    is issued, [Select] returns that error at once and the nil sequence;
    a statement that cannot be built is not sent at all. *)
Theorem Select_fails_eagerly
    ctx db table (where_ : Sqlizer any) s (err : error) :
  Select_ToSql (Select_bld (T := T) Tag table where_) = Fail err \/
  (exists (query : string) (args : list any),
     Select_ToSql (Select_bld (T := T) Tag table where_) = Ok (query, args) /\
     (queryContext db ctx (Rebind db query) args s).2 = Fail err) ->
  (Select (T := T) Tag ctx db table where_ s).2 = (None, Some err) /\
  (Select_ToSql (Select_bld (T := T) Tag table where_) = Fail err ->
   (Select (T := T) Tag ctx db table where_ s).1 = s).
Proof.
  intros Hfail. split.
  - destruct Hfail as [Hbuild | (query & args & Hbuild & Hquery)];
      unfold Select; rewrite Hbuild; cbv zeta; [done|].
    unfold QueryxContext.
    destruct (queryContext db ctx (Rebind db query) args s) as [s' r].
    cbn in Hquery. subst r. reflexivity.
  - intros Hbuild. unfold Select. rewrite Hbuild. reflexivity.
Qed.
End WriteFacts.

(** ** The sequence returned by [Select] *)

Section CursorFacts.
Context {Raw : Type}.
Implicit Types (rows : Rows Raw).

Lemma Rows_Next_true rows rows' :
  Rows_Next rows = (rows', true) ->
  exists raw,
    pending rows = raw :: pending rows' /\ current rows' = Some raw /\
    closed rows' = false /\ terminal rows' = terminal rows /\
    releases rows' = releases rows /\ closeCalls rows' = closeCalls rows.
Proof.
  unfold Rows_Next. destruct (closed rows); [discriminate|].
  destruct (pending rows) as [|raw rest]; [unfold release; simpl; discriminate|].
  intros [= <-]. by exists raw.
Qed.

Lemma Rows_Next_false rows rows' :
  closed rows = false -> Rows_Next rows = (rows', false) ->
  pending rows = [] /\ Rows_Err rows' = terminal rows /\
  closed rows' = true /\ releases rows' = S (releases rows) /\
  closeCalls rows' = closeCalls rows.
Proof.
  unfold Rows_Next. intros ->.
  destruct (pending rows) as [|raw rest]; [|discriminate].
  unfold release. simpl. by intros [= <-].
Qed.

Lemma Rows_Scan_current {D : Type} (scan : Raw -> D -> D * option error)
    rows (raw : Raw) (dest : D) :
  closed rows = false -> current rows = Some raw ->
  Rows_Scan scan rows dest = scan raw dest.
Proof. unfold Rows_Scan. by intros -> ->. Qed.

(** Closing an open cursor releases it; closing a closed one only counts
    the call. *)
Lemma Rows_Close_counts rows :
  closed (Rows_Close rows).1 = true /\
  closeCalls (Rows_Close rows).1 = S (closeCalls rows) /\
  releases (Rows_Close rows).1
  = if closed rows then releases rows else S (releases rows).
Proof. unfold Rows_Close, release. simpl. by destruct (closed rows). Qed.
End CursorFacts.

Section IteratorFacts.
Context {any Raw T : Type} `{!Reflected any Raw T}.
Context {C : Type}.
Implicit Types (yield : C -> T -> option error -> C * bool).
Implicit Types (rows : Rows Raw) (c : C) (seen : list (T * option error)).

Lemma iterBody_run yield rows c seen :
  closed rows = false ->
  let it := iterBody yield rows c seen in
  closeCalls (it_rows it) = closeCalls rows /\
  if it_exhausted it then
    it_yielded it
    = (seen ++ (decoded <$> pending rows) ++ final_pair (terminal rows))%list /\
    closed (it_rows it) = true /\
    releases (it_rows it) = S (releases rows)
  else
    (exists n, (n < length (pending rows))%nat /\
       it_yielded it
       = (seen ++ (decoded <$> take (S n) (pending rows)))%list) /\
    closed (it_rows it) = false /\
    releases (it_rows it) = releases rows.
Proof.
  funelim (iterBody yield rows c seen); intros Hopen; cbn [it_rows it_yielded it_exhausted it_caller].
  - destruct (Rows_Next_true _ _ Hnext)
      as (raw & Hpend & Hcur & Hopen' & Hterm & Hrel & Hcalls).
    rewrite (Rows_Scan_current _ _ _ _ Hopen' Hcur) in Heq0.
    destruct (H Hopen') as [Hc Hrun]. split; [congruence|].
    destruct (it_exhausted _).
    + destruct Hrun as (-> & -> & ->). rewrite Hpend, Hterm, Hrel.
      unfold decoded at 2. rewrite fmap_cons. unfold decoded at 1.
      rewrite Heq0, <- app_assoc. done.
    + destruct Hrun as ((n & Hn & ->) & -> & ->). rewrite Hpend, Hrel.
      split; [|done]. exists (S n). split; [simpl; lia|].
      rewrite firstn_cons, fmap_cons. unfold decoded at 2.
      rewrite Heq0, <- app_assoc. done.
  - destruct (Rows_Next_true _ _ Hnext)
      as (raw & Hpend & Hcur & Hopen' & Hterm & Hrel & Hcalls).
    rewrite (Rows_Scan_current _ _ _ _ Hopen' Hcur) in Heq0.
    split; [done|]. split; [|done]. exists 0%nat. rewrite Hpend.
    split; [simpl; lia|]. cbn. unfold decoded. by rewrite Heq0.
  - destruct (Rows_Next_false _ _ Hopen Hnext)
      as (Hpend & Herr & Hclosed & Hrel & Hcalls).
    rewrite Heq in Herr. rewrite Hpend, <- Herr. done.
  - destruct (Rows_Next_false _ _ Hopen Hnext)
      as (Hpend & Herr & Hclosed & Hrel & Hcalls).
    rewrite Heq in Herr. rewrite Hpend, <- Herr. cbn.
    by rewrite app_nil_r.
Qed.

(** On a cursor that is closed already the loop does not start and the
    cursor stays as it is. *)
Lemma iterBody_closed yield rows c seen :
  closed rows = true -> it_rows (iterBody yield rows c seen) = rows.
Proof.
  funelim (iterBody yield rows c seen); intros Hclosed; cbn [it_rows].
  1,2: pose proof Hnext as Hn; revert Hn; unfold Rows_Next;
    rewrite Hclosed; discriminate.
  all: pose proof Hnext as Hn; revert Hn; unfold Rows_Next;
    rewrite Hclosed; by intros [= <-].
Qed.

(** A caller that never stops the iteration sees the loop run to its
    end: the sequence function gives up on no row. *)
Lemma iterBody_never_stopped yield rows c seen :
  (forall c t err, (yield c t err).2 = true) ->
  it_exhausted (iterBody yield rows c seen) = true.
Proof.
  intros Hgo. funelim (iterBody yield rows c seen); cbn [it_exhausted];
    [auto | | done | done].
  specialize (Hgo c t err). rewrite Heq in Hgo. discriminate.
Qed.

(** What has been yielded is always an initial part of the whole
    sequence. *)
Lemma iterBody_yields_prefix yield rows c :
  closed rows = false ->
  exists n,
    it_yielded (iterBody yield rows c [])
    = take n (whole_sequence (pending rows) (terminal rows)).
Proof.
  intros Hopen. destruct (iterBody_run yield rows c [] Hopen) as [_ Hrun].
  unfold whole_sequence. destruct (it_exhausted _).
  - destruct Hrun as (-> & _). eexists. by rewrite take_ge.
  - destruct Hrun as ((n & Hn & ->) & _). exists (S n).
    rewrite take_app_le by (rewrite length_fmap; lia).
    by rewrite fmap_take.
Qed.
End IteratorFacts.

Section SelectFacts.
Context {any Raw T : Type} `{!Reflected any Raw T}.
Context {St C : Type}.
Variable Tag : string.
Implicit Types (ctx : Context) (db : ExtContext any Raw St) (s : St).
Implicit Types (table : string) (seq : Seq2 (Raw := Raw)).
Implicit Types (yield : C -> T -> option error -> C * bool) (c : C).

(** A sequence [Select] returns drives the cursor the query opened. *)
Lemma Select_sequence ctx db table (where_ : Sqlizer any) s
    (query : string) (args : list any) (s' : St) (rs : ResultSet Raw) :
  Select_ToSql (Select_bld (T := T) Tag table where_) = Ok (query, args) ->
  queryContext db ctx (Rebind db query) args s = (s', Ok rs) ->
  Select (T := T) Tag ctx db table where_ s
  = (s', (Some {| seq_rows := open rs |}, None)).
Proof.
  intros Hbuild Hquery. unfold Select, QueryxContext.
  rewrite Hbuild. cbv zeta. by rewrite Hquery.
Qed.

Lemma Select_sequence_inv ctx db table (where_ : Sqlizer any) s
    (s' : St) seq :
  Select (T := T) Tag ctx db table where_ s = (s', (Some seq, None)) ->
  exists rs, seq = {| seq_rows := open rs |}.
Proof.
  unfold Select, QueryxContext.
  destruct (Select_ToSql _) as [[query args]|err]; [|discriminate].
  destruct (queryContext db ctx (Rebind db query) args s) as [s1 [rs|err]];
    cbn; [|discriminate].
  intros [= _ <-]. by exists rs.
Qed.

(** C4: every run of a sequence that [Select] returned leaves the cursor
    closed, with the driver cursor released exactly once and [Close]
    called exactly once, whatever the caller does (stop at any pair or
    never) and whatever the rows and the cursor report (decode errors, a
    terminal error).  Driving the same sequence again does not release
    the cursor a second time. *)
Theorem Select_cursor_released_once
    ctx db table (where_ : Sqlizer any) s (s' : St) seq yield c :
  Select (T := T) Tag ctx db table where_ s = (s', (Some seq, None)) ->
  let it := iterFunc seq yield c in
  closed (it_rows it) = true /\
  releases (it_rows it) = 1%nat /\
  closeCalls (it_rows it) = 1%nat /\
  forall yield' c',
    releases (it_rows (iterFunc {| seq_rows := it_rows it |} yield' c'))
    = 1%nat.
Proof.
  intros [rs ->]%Select_sequence_inv it.
  assert (Hit : closed (it_rows it) = true /\
                releases (it_rows it) = 1%nat /\
                closeCalls (it_rows it) = 1%nat).
  { subst it. unfold iterFunc, defer_Close. cbn [it_rows seq_rows].
    destruct (iterBody_run yield (open rs) c [] eq_refl) as [Hcalls Hrun].
    destruct (Rows_Close_counts (it_rows (iterBody yield (open rs) c [])))
      as (Hclosed & Hcount & Hrel).
    rewrite Hclosed, Hcount, Hrel, Hcalls.
    destruct (it_exhausted _).
    - destruct Hrun as (_ & -> & ->). done.
    - destruct Hrun as (_ & -> & ->). done. }
  destruct Hit as (Hclosed & Hrel & Hcalls). repeat split; try done.
  intros yield' c'. unfold iterFunc at 1, defer_Close.
  cbn [it_rows seq_rows]. rewrite iterBody_closed by done.
  destruct (Rows_Close_counts (it_rows it)) as (_ & _ & ->).
  by rewrite Hclosed.
Qed.

(** C7: when the loop of a sequence that [Select] returned has run until
    the cursor had no more rows, the pairs it yielded are the rows, each
    decoded into a fresh record, followed by exactly one pair of the zero
    record and the cursor's error if the cursor reports one, and by
    nothing if it reports none. *)
Theorem Select_terminal_error_pair
    ctx db table (where_ : Sqlizer any) s
    (query : string) (args : list any) (s' : St) (rs : ResultSet Raw) :
  Select_ToSql (Select_bld (T := T) Tag table where_) = Ok (query, args) ->
  queryContext db ctx (Rebind db query) args s = (s', Ok rs) ->
  let seq := {| seq_rows := open rs |} in
  Select (T := T) Tag ctx db table where_ s = (s', (Some seq, None)) /\
  forall yield c,
      it_exhausted (iterFunc seq yield c) = true ->
      it_yielded (iterFunc seq yield c)
      = ((decoded <$> rs_rows rs) ++
         match rs_err rs with
         | Some terminalError => [(zero, Some terminalError)]
         | None => []
         end)%list.
Proof.
  intros Hbuild Hquery seq. subst seq.
  split; [eapply Select_sequence; eassumption|].
  intros yield c. unfold iterFunc, defer_Close.
  cbn [it_exhausted it_yielded seq_rows].
  destruct (iterBody_run yield (open rs) c [] eq_refl) as [_ Hrun].
  intros Hdone. rewrite Hdone in Hrun. by destruct Hrun as (-> & _).
Qed.

(** C3 (as the code has it): when decoding row k fails with an error, a
    sequence that [Select] returned yields at position k the pair of that
    error and the fresh record as the failed decoding left it.  Whenever
    the iteration gets as far as position k, the pairs before it are the
    rows before row k, decoded; and a caller that keeps answering
    "continue" receives every later row and the final pair as well. *)
Theorem Select_decode_error_is_yielded
    ctx db table (where_ : Sqlizer any) s
    (query : string) (args : list any) (s' : St) (rs : ResultSet Raw)
    (pre post : list Raw) (raw : Raw) (t : T) (err : error) :
  Select_ToSql (Select_bld (T := T) Tag table where_) = Ok (query, args) ->
  queryContext db ctx (Rebind db query) args s = (s', Ok rs) ->
  rs_rows rs = (pre ++ raw :: post)%list ->
  StructScan raw zero = (t, Some err) ->
  let seq := {| seq_rows := open rs |} in
  Select (T := T) Tag ctx db table where_ s = (s', (Some seq, None)) /\
  forall yield c,
      let it := iterFunc seq yield c in
      ((length pre < length (it_yielded it))%nat ->
       take (length pre) (it_yielded it) = decoded <$> pre /\
       it_yielded it !! length pre = Some (t, Some err)) /\
      ((forall c t err, (yield c t err).2 = true) ->
       it_yielded it
       = ((decoded <$> pre) ++ (t, Some err) :: (decoded <$> post) ++
          final_pair (rs_err rs))%list).
Proof.
  intros Hbuild Hquery Hrows Hscan seq. subst seq.
  split; [eapply Select_sequence; eassumption|].
  intros yield c it. subst it. unfold iterFunc, defer_Close.
  cbn [it_yielded seq_rows].
  assert (Hwhole : whole_sequence (T := T) (rs_rows rs) (rs_err rs)
                   = ((decoded <$> pre) ++ (t, Some err) ::
                      (decoded <$> post) ++ final_pair (rs_err rs))%list).
  { unfold whole_sequence. rewrite Hrows, fmap_app, fmap_cons.
    unfold decoded at 2. rewrite Hscan, <- app_assoc. done. }
  split.
  - destruct (iterBody_yields_prefix yield (open rs) c eq_refl) as [n ->].
    cbn [pending terminal open]. rewrite Hwhole.
    intros Hlen. rewrite length_take in Hlen.
    assert (Hk : (length pre < n)%nat) by lia.
    assert (Hpre : length (decoded (T := T) <$> pre) = length pre)
      by apply length_fmap.
    split.
    + rewrite take_take, Nat.min_l by lia.
      by rewrite take_app_length' by done.
    + rewrite lookup_take_lt by done.
      by rewrite list_lookup_middle by done.
  - intros Hgo.
    destruct (iterBody_run yield (open rs) c [] eq_refl) as [_ Hrun].
    rewrite (iterBody_never_stopped _ _ _ _ Hgo) in Hrun.
    destruct Hrun as (-> & _). exact Hwhole.
Qed.
End SelectFacts.

(** ** The theorems at concrete inputs *)

Section Concrete.
Import Mock Sample.

(** C2 (as stated) fails: the single-row query yields a row, the scan
    reports no error, and [Exists] returns false, because the row holds 0
    and not 1. *)
Lemma Exists_false_though_row_returned :
  Row_Scan scanInt64 (Ok (open (rowsOf [[VInt 0]] None))) 0 = (0, None) /\
  Exists Background (rowConn (Ok (rowsOf [[VInt 0]] None))) "t" (EqID 1) []
  = ([CQueryRow "SELECT 1 as X FROM t WHERE id = ?" [VInt 1]], (false, None)).
Proof. split; reflexivity. Qed.

Lemma Exists_reads_the_flag_witness :
  Row_Scan scanInt64 (Ok (open (rowsOf [[VInt 1]] None))) 0 = (1, None) /\
  Exists Background (rowConn (Ok (rowsOf [[VInt 1]] None))) "t" (EqID 1) []
  = ([CQueryRow "SELECT 1 as X FROM t WHERE id = ?" [VInt 1]], (true, None)).
Proof.
  split; [reflexivity|].
  apply (Exists_reads_the_flag Background
           (rowConn (Ok (rowsOf [[VInt 1]] None))) "t" (EqID 1) []
           "SELECT 1 as X FROM t WHERE id = ?" [VInt 1] _
           (Ok (open (rowsOf [[VInt 1]] None))) 1); reflexivity.
Defined.


Lemma SelectRow_not_found_witness :
  SelectRow (T := Item) "db" Background (rowConn (Ok (rowsOf [] None)))
    "t" (EqID 2) []
  = ([CQueryRow "SELECT id, name FROM t WHERE id = ?" [VInt 2]],
     (None, Some ErrNoRows)) /\
  SelectRow (T := Item) "db" Background
    (rowConn (Ok (rowsOf [[VInt 2; VBool true]] None))) "t" (EqID 2) []
  = ([CQueryRow "SELECT id, name FROM t WHERE id = ?" [VInt 2]],
     (None, Some (ErrMsg "sql: Scan error on column index 1"))).
Proof.
  split.
  - edestruct (SelectRow_fails_without_record (T := Item) "db" Background
                 (rowConn (Ok (rowsOf [] None))) "t" (EqID 2) [])
      as (Hnone & _ & _); [reflexivity | reflexivity |].
    apply (Hnone (rowsOf [] None)); reflexivity.
  - edestruct (SelectRow_fails_without_record (T := Item) "db" Background
                 (rowConn (Ok (rowsOf [[VInt 2; VBool true]] None)))
                 "t" (EqID 2) [])
      as (_ & Hfail & _); [reflexivity | reflexivity |].
    apply (Hfail {| ID := 2; Name := "" |}); reflexivity.
Defined.

Lemma InsertPSQLFull_returning_id_witness :
  "t" <> "" /\
  (InsertPSQLFull "db" Background (rowConn (Ok (rowsOf [[VInt 5]] None)))
     true "t" "id" item []).2 = (5, None) /\
  (InsertPSQLFull "db" Background (rowConn (Fail down))
     true "t" "id" item []).2 = (0, Some down).
Proof.
  assert (Ht : "t" <> "") by discriminate.
  split; [exact Ht|]. split.
  - destruct (InsertPSQLFull_returning_id "db" Background
                (rowConn (Ok (rowsOf [[VInt 5]] None))) true "t" "id" item []
                Ht)
      as (_ & _ & _ & body & binds & _ & _ & Hrun).
    destruct (Hrun _ _ eq_refl) as [Hok _].
    rewrite (Hok 5 eq_refl). reflexivity.
  - destruct (InsertPSQLFull_returning_id "db" Background
                (rowConn (Fail down)) true "t" "id" item [] Ht)
      as (_ & _ & _ & body & binds & _ & _ & Hrun).
    destruct (Hrun _ _ eq_refl) as [_ Hfail].
    rewrite (Hfail 0 down eq_refl). reflexivity.
Defined.

Lemma accessor_error_witness :
  InsertFull "db" Background (execConn (Ok badResult)) true "t" item []
  = ([CExec "INSERT INTO t (id,name) VALUES (?,?) ON CONFLICT DO NOTHING"
        [VInt 1; VStr "a"]],
     (7, Some (ErrMsg "no last insert id"))) /\
  Update "db" Background (execConn (Ok badResult)) "t" item (EqID 1) []
  = ([CExec "UPDATE t SET name = ? WHERE id = ?" [VStr "a"; VInt 1]],
     (3, Some (ErrMsg "no rows affected"))).
Proof.
  destruct (accessor_error_keeps_reported_value "db" Background
              (execConn (Ok badResult)) true "t" item (EqID 1) [])
    as [Hinsert Hupdate].
  split.
  - apply (Hinsert
             "INSERT INTO t (id,name) VALUES (?,?) ON CONFLICT DO NOTHING"
             [VInt 1; VStr "a"] _ badResult); reflexivity.
  - apply (Hupdate "UPDATE t SET name = ? WHERE id = ?"
             [VStr "a"; VInt 1] _ badResult); reflexivity.
Defined.

Lemma Select_fails_eagerly_witness :
  (queryContext (queryConn (Fail down)) Background
     "SELECT id, name FROM t WHERE id = ?" [VInt 1] []).2 = Fail down /\
  (Select (T := Item) "db" Background (queryConn (Fail down))
     "t" (EqID 1) []).2 = (None, Some down) /\
  Select (T := Item) "db" Background (queryConn (Fail down)) "t"
    {| ToSql := Fail (ErrMsg "bad predicate") |} []
  = ([], (None, Some (ErrMsg "bad predicate"))).
Proof.
  split; [reflexivity|]. split.
  - apply (Select_fails_eagerly (T := Item) "db" Background
             (queryConn (Fail down)) "t" (EqID 1) [] down).
    right. exists "SELECT id, name FROM t WHERE id = ?", [VInt 1].
    split; reflexivity.
  - edestruct (Select_fails_eagerly (T := Item) "db" Background
                 (queryConn (Fail down)) "t"
                 {| ToSql := Fail (ErrMsg "bad predicate") |} []
                 (ErrMsg "bad predicate"))
      as [Hres Hstate]; [left; reflexivity|].
    apply injective_projections; [apply Hstate; reflexivity | exact Hres].
Defined.

(** [Collect2] stops at the second of three rows, which does not decode,
    on a cursor that would have ended with an error; the other caller
    never stops. *)
Lemma Select_cursor_released_once_witness :
  Select (T := Item) "db" Background
    (queryConn (Ok (rowsOf threeRows (Some down)))) "t" (EqID 1) []
  = ([CQuery "SELECT id, name FROM t WHERE id = ?" [VInt 1]],
     (Some (cursor threeRows (Some down)), None)) /\
  it_exhausted (Collect2_run (T := Item) (cursor threeRows (Some down)))
  = false /\
  releases (it_rows (Collect2_run (T := Item) (cursor threeRows (Some down))))
  = 1%nat /\
  releases (it_rows (iterFunc (cursor threeRows (Some down)) keep []))
  = 1%nat.
Proof.
  split; [reflexivity|]. split; [reflexivity|]. split.
  - edestruct (Select_cursor_released_once (T := Item) "db" Background
                 (queryConn (Ok (rowsOf threeRows (Some down)))) "t" (EqID 1)
                 [] [CQuery "SELECT id, name FROM t WHERE id = ?" [VInt 1]]
                 (cursor threeRows (Some down)) Collect2_body ([], None))
      as (_ & Hrel & _); [reflexivity | exact Hrel].
  - edestruct (Select_cursor_released_once (T := Item) "db" Background
                 (queryConn (Ok (rowsOf threeRows (Some down)))) "t" (EqID 1)
                 [] [CQuery "SELECT id, name FROM t WHERE id = ?" [VInt 1]]
                 (cursor threeRows (Some down)) keep [])
      as (_ & Hrel & _); [reflexivity | exact Hrel].
Defined.

Lemma Select_terminal_error_pair_witness :
  it_exhausted (iterFunc (cursor threeRows (Some down)) keep []) = true /\
  it_yielded (iterFunc (cursor threeRows (Some down)) keep [])
  = [ ({| ID := 1; Name := "a" |}, None);
      ({| ID := 2; Name := "" |},
       Some (ErrMsg "sql: Scan error on column index 1"));
      ({| ID := 3; Name := "c" |}, None);
      ({| ID := 0; Name := "" |}, Some down) ] /\
  it_yielded (iterFunc (cursor threeRows None) keep [])
  = [ ({| ID := 1; Name := "a" |}, None);
      ({| ID := 2; Name := "" |},
       Some (ErrMsg "sql: Scan error on column index 1"));
      ({| ID := 3; Name := "c" |}, None) ].
Proof.
  split; [reflexivity|]. split.
  - edestruct (Select_terminal_error_pair (T := Item) (C := list Item) "db" Background
                 (queryConn (Ok (rowsOf threeRows (Some down)))) "t" (EqID 1)
                 [] "SELECT id, name FROM t WHERE id = ?" [VInt 1]
                 [CQuery "SELECT id, name FROM t WHERE id = ?" [VInt 1]]
                 (rowsOf threeRows (Some down)))
      as [_ Hrun]; [reflexivity | reflexivity |].
    apply (Hrun keep []). reflexivity.
  - edestruct (Select_terminal_error_pair (T := Item) (C := list Item) "db" Background
                 (queryConn (Ok (rowsOf threeRows None))) "t" (EqID 1)
                 [] "SELECT id, name FROM t WHERE id = ?" [VInt 1]
                 [CQuery "SELECT id, name FROM t WHERE id = ?" [VInt 1]]
                 (rowsOf threeRows None))
      as [_ Hrun]; [reflexivity | reflexivity |].
    apply (Hrun keep []). reflexivity.
Defined.

(** C3 (as stated) fails: the second row does not decode, and the pair
    yielded for it carries the record with the column that was already
    assigned, not the zero record. *)
Lemma Select_decode_error_record_not_zero :
  Select (T := Item) "db" Background
    (queryConn (Ok (rowsOf threeRows None))) "t" (EqID 1) []
  = ([CQuery "SELECT id, name FROM t WHERE id = ?" [VInt 1]],
     (Some (cursor threeRows None), None)) /\
  StructScan (T := Item) [VInt 2; VBool true] zero
  = ({| ID := 2; Name := "" |},
     Some (ErrMsg "sql: Scan error on column index 1")) /\
  it_yielded (iterFunc (cursor threeRows None) keep []) !! 1%nat
  = Some ({| ID := 2; Name := "" |},
          Some (ErrMsg "sql: Scan error on column index 1")) /\
  it_yielded (iterFunc (cursor threeRows None) keep []) !! 1%nat
  <> Some (zero, Some (ErrMsg "sql: Scan error on column index 1")).
Proof. repeat split; try reflexivity. vm_compute. discriminate. Qed.

Lemma Select_decode_error_is_yielded_witness :
  StructScan (T := Item) [VInt 2; VBool true] zero
  = ({| ID := 2; Name := "" |},
     Some (ErrMsg "sql: Scan error on column index 1")) /\
  it_yielded (iterFunc (cursor threeRows (Some down)) take (2%nat, []))
    !! 1%nat
  = Some ({| ID := 2; Name := "" |},
          Some (ErrMsg "sql: Scan error on column index 1")) /\
  it_yielded (iterFunc (cursor threeRows (Some down)) keep [])
  = [ ({| ID := 1; Name := "a" |}, None);
      ({| ID := 2; Name := "" |},
       Some (ErrMsg "sql: Scan error on column index 1"));
      ({| ID := 3; Name := "c" |}, None);
      ({| ID := 0; Name := "" |}, Some down) ].
Proof.
  split; [reflexivity|]. split.
  - edestruct (Select_decode_error_is_yielded (T := Item) (C := (nat * list Item)%type) "db" Background
                 (queryConn (Ok (rowsOf threeRows (Some down)))) "t" (EqID 1)
                 [] "SELECT id, name FROM t WHERE id = ?" [VInt 1]
                 [CQuery "SELECT id, name FROM t WHERE id = ?" [VInt 1]]
                 (rowsOf threeRows (Some down))
                 [[VInt 1; VStr "a"]] [[VInt 3; VStr "c"]]
                 [VInt 2; VBool true])
      as [_ Hrun]; [reflexivity | reflexivity | reflexivity | reflexivity |].
    destruct (Hrun take (2%nat, [])) as [Hat _].
    apply Hat. vm_compute. lia.
  - edestruct (Select_decode_error_is_yielded (T := Item) (C := list Item) "db" Background
                 (queryConn (Ok (rowsOf threeRows (Some down)))) "t" (EqID 1)
                 [] "SELECT id, name FROM t WHERE id = ?" [VInt 1]
                 [CQuery "SELECT id, name FROM t WHERE id = ?" [VInt 1]]
                 (rowsOf threeRows (Some down))
                 [[VInt 1; VStr "a"]] [[VInt 3; VStr "c"]]
                 [VInt 2; VBool true])
      as [_ Hrun]; [reflexivity | reflexivity | reflexivity | reflexivity |].
    destruct (Hrun keep []) as [_ Hall].
    apply Hall. intros kept t [e|]; reflexivity.
Defined.
End Concrete.

(** * Further properties of the package *)

(** ** Driving a sequence: [Collect2] and the cursor *)

Section LoopFacts.
Context {any Raw T : Type} `{!Reflected any Raw T}.
Context {C : Type}.
Implicit Types (yield : C -> T -> option error -> C * bool).
Implicit Types (rows : Rows Raw) (c : C) (seen : list (T * option error)).

(** One turn of the loop, as the source reads. *)
Lemma iterBody_step yield rows c seen :
  iterBody yield rows c seen
  = match Rows_Next rows with
    | (rows', true) =>
      match Rows_Scan StructScan rows' zero with
      | (t, err) =>
        match yield c t err with
        | (c', true) => iterBody yield rows' c' (seen ++ [(t, err)])
        | (c', false) =>
          {| it_rows := rows'; it_caller := c';
             it_yielded := seen ++ [(t, err)]; it_exhausted := false |}
        end
      end
    | (rows', false) =>
      match Rows_Err rows' with
      | Some err =>
        {| it_rows := rows'; it_caller := (yield c zero (Some err)).1;
           it_yielded := seen ++ [(zero, Some err)]; it_exhausted := true |}
      | None =>
        {| it_rows := rows'; it_caller := c; it_yielded := seen;
           it_exhausted := true |}
      end
    end.
Proof.
  funelim (iterBody yield rows c seen).
  - by rewrite Hnext, Heq0, Heq.
  - by rewrite Hnext, Heq0, Heq.
  - by rewrite Hnext, Heq.
  - by rewrite Hnext, Heq.
Qed.

(** [Next] on an open cursor with a row left loads that row and nothing
    else changes. *)
Lemma Rows_Next_cons rows (raw : Raw) (rest : list Raw) :
  closed rows = false -> pending rows = raw :: rest ->
  exists rows',
    Rows_Next rows = (rows', true) /\ pending rows' = rest /\
    current rows' = Some raw /\ closed rows' = false /\
    terminal rows' = terminal rows /\ releases rows' = releases rows /\
    closeCalls rows' = closeCalls rows.
Proof.
  intros Hopen Hpend. unfold Rows_Next. rewrite Hopen, Hpend.
  eexists. split; [reflexivity|]. done.
Qed.

(** [Next] on an open cursor without rows ends it. *)
Lemma Rows_Next_nil rows :
  closed rows = false -> pending rows = [] ->
  exists rows',
    Rows_Next rows = (rows', false) /\ pending rows' = [] /\
    Rows_Err rows' = terminal rows /\ closed rows' = true /\
    releases rows' = S (releases rows) /\ closeCalls rows' = closeCalls rows.
Proof.
  intros Hopen Hpend. unfold Rows_Next. rewrite Hopen, Hpend.
  eexists. split; [reflexivity|]. done.
Qed.

Lemma Rows_Close_pending rows : pending (Rows_Close rows).1 = pending rows.
Proof. unfold Rows_Close, release. simpl. by destruct (closed rows). Qed.

(** Where the loop stops before the end, the cursor has advanced by the
    rows that were yielded and by no more. *)
Lemma iterBody_rest yield rows c seen :
  closed rows = false ->
  let it := iterBody yield rows c seen in
  if it_exhausted it then pending (it_rows it) = []
  else
    exists n, (n < length (pending rows))%nat /\
      it_yielded it = (seen ++ (decoded <$> take (S n) (pending rows)))%list /\
      pending (it_rows it) = drop (S n) (pending rows).
Proof.
  funelim (iterBody yield rows c seen); intros Hopen;
    cbn [it_rows it_yielded it_exhausted it_caller].
  - destruct (Rows_Next_true _ _ Hnext)
      as (raw & Hpend & Hcur & Hopen' & Hterm & Hrel & Hcalls).
    rewrite (Rows_Scan_current _ _ _ _ Hopen' Hcur) in Heq0.
    specialize (H Hopen'). destruct (it_exhausted _); [done|].
    destruct H as (n & Hn & -> & ->). rewrite Hpend.
    exists (S n). split; [simpl; lia|]. split; [|done].
    rewrite firstn_cons, fmap_cons. unfold decoded at 2.
    by rewrite Heq0, <- app_assoc.
  - destruct (Rows_Next_true _ _ Hnext)
      as (raw & Hpend & Hcur & Hopen' & Hterm & Hrel & Hcalls).
    rewrite (Rows_Scan_current _ _ _ _ Hopen' Hcur) in Heq0.
    exists 0%nat. rewrite Hpend. split; [simpl; lia|]. split; [|done].
    cbn. unfold decoded. by rewrite Heq0.
  - pose proof Hnext as Hn. revert Hn. unfold Rows_Next. rewrite Hopen.
    destruct (pending rows); [|discriminate].
    unfold release. simpl. by intros [= <-].
  - pose proof Hnext as Hn. revert Hn. unfold Rows_Next. rewrite Hopen.
    destruct (pending rows); [|discriminate].
    unfold release. simpl. by intros [= <-].
Qed.
End LoopFacts.

Section CollectFacts.
Context {any Raw T : Type} `{!Reflected any Raw T}.
Implicit Types (rows : Rows Raw) (acc : list T).
Implicit Types (seen : list (T * option error)).

(** Over rows that decode cleanly the loop of [Collect2] keeps going and
    appends each record. *)
Lemma Collect2_loop_clean (pre rest : list Raw) rows acc seen :
  closed rows = false -> pending rows = (pre ++ rest)%list ->
  Forall (fun raw => (decoded (T := T) raw).2 = None) pre ->
  exists rows',
    pending rows' = rest /\ closed rows' = false /\
    terminal rows' = terminal rows /\ releases rows' = releases rows /\
    closeCalls rows' = closeCalls rows /\
    iterBody Collect2_body rows (acc, None) seen
    = iterBody Collect2_body rows'
        ((acc ++ ((fun raw => (decoded raw).1) <$> pre))%list, None)
        (seen ++ (decoded <$> pre))%list.
Proof.
  revert rows acc seen.
  induction pre as [|raw pre IH]; intros rows acc seen Hopen Hpend Hclean.
  - exists rows. cbn. by rewrite !app_nil_r.
  - destruct (Rows_Next_cons rows raw (pre ++ rest) Hopen Hpend)
      as (rows1 & Hnext & Hpend1 & Hcur & Hopen1 & Hterm & Hrel & Hcalls).
    inversion Hclean as [|? ? Hraw Hpre]; subst.
    destruct (IH rows1 (acc ++ [(decoded raw).1])%list
                (seen ++ [decoded raw])%list Hopen1 Hpend1 Hpre)
      as (rows' & Hp & Ho & Ht & Hr & Hc & Hrun).
    exists rows'. rewrite Hp, Ho, Ht, Hr, Hc.
    repeat split; try done.
    rewrite iterBody_step, Hnext.
    rewrite (Rows_Scan_current _ _ _ _ Hopen1 Hcur).
    fold (decoded raw). destruct (decoded raw) as [t err] eqn:Hdec.
    cbn in Hraw. subst err. cbn [Collect2_body fst].
    cbn [fst] in Hrun. rewrite Hrun, !fmap_cons, Hdec.
    cbn [fst]. by rewrite <- !app_assoc.
Qed.

(** X1: when every row decodes and the cursor ends without an error,
    [Collect2] returns all the records, in the order of the rows, and no
    error. *)
Theorem Collect2_returns_all_records (rs : ResultSet Raw) :
  Forall (fun raw => (decoded (T := T) raw).2 = None) (rs_rows rs) -> rs_err rs = None ->
  Collect2 (T := T) {| seq_rows := open rs |}
  = ((fun raw => (decoded raw).1) <$> rs_rows rs, None).
Proof.
  intros Hclean Herr. unfold Collect2, Collect2_run, iterFunc, defer_Close.
  cbn [it_caller seq_rows].
  destruct (Collect2_loop_clean (rs_rows rs) [] (open rs) [] [] eq_refl)
    as (rows' & Hp & Ho & Ht & _ & _ & ->); [by rewrite app_nil_r | done |].
  destruct (Rows_Next_nil rows' Ho Hp) as (rows'' & Hnext & _ & Hlast & _).
  rewrite iterBody_step, Hnext, Hlast, Ht. cbn [terminal open].
  rewrite Herr. reflexivity.
Qed.

(** X2: when row k is the first that does not decode, [Collect2] returns
    the nil slice with that row's error: the records collected so far are
    dropped, the rows after row k are left unread on the cursor, and the
    cursor is closed, released once. *)
Theorem Collect2_stops_at_first_decode_error
    (rs : ResultSet Raw) (pre post : list Raw) (raw : Raw) (t : T)
    (err : error) :
  rs_rows rs = (pre ++ raw :: post)%list ->
  Forall (fun raw => (decoded (T := T) raw).2 = None) pre ->
  decoded raw = (t, Some err) ->
  let run := Collect2_run (T := T) {| seq_rows := open rs |} in
  Collect2 (T := T) {| seq_rows := open rs |} = ([], Some err) /\
  it_yielded run = ((decoded <$> pre) ++ [(t, Some err)])%list /\
  pending (it_rows run) = post /\
  closed (it_rows run) = true /\
  releases (it_rows run) = 1%nat.
Proof.
  intros Hrows Hclean Hdec run. subst run.
  unfold Collect2, Collect2_run, iterFunc, defer_Close.
  cbn [it_caller it_yielded it_rows seq_rows].
  destruct (Collect2_loop_clean pre (raw :: post) (open rs) [] [] eq_refl)
    as (rows' & Hp & Ho & Ht & Hr & Hc & ->); [done | done |].
  destruct (Rows_Next_cons rows' raw post Ho Hp)
    as (rows1 & Hnext & Hpend1 & Hcur & Hopen1 & _ & Hrel1 & _).
  rewrite iterBody_step, Hnext.
  rewrite (Rows_Scan_current _ _ _ _ Hopen1 Hcur).
  fold (decoded raw). rewrite Hdec.
  cbn [Collect2_body it_caller it_yielded it_rows].
  rewrite Rows_Close_pending.
  destruct (Rows_Close_counts rows1) as (-> & _ & ->).
  rewrite Hopen1, Hrel1, Hr. done.
Qed.

(** X3: when every row decodes but the cursor ends with an error,
    [Collect2] returns the nil slice with the cursor's error: all the
    records are dropped. *)
Theorem Collect2_drops_records_on_terminal_error
    (rs : ResultSet Raw) (err : error) :
  Forall (fun raw => (decoded (T := T) raw).2 = None) (rs_rows rs) -> rs_err rs = Some err ->
  Collect2 (T := T) {| seq_rows := open rs |} = ([], Some err).
Proof.
  intros Hclean Herr. unfold Collect2, Collect2_run, iterFunc, defer_Close.
  cbn [it_caller seq_rows].
  destruct (Collect2_loop_clean (rs_rows rs) [] (open rs) [] [] eq_refl)
    as (rows' & Hp & Ho & Ht & _ & _ & ->); [by rewrite app_nil_r | done |].
  destruct (Rows_Next_nil rows' Ho Hp) as (rows'' & Hnext & _ & Hlast & _).
  rewrite iterBody_step, Hnext, Hlast, Ht. cbn [terminal open].
  rewrite Herr. reflexivity.
Qed.

(** X4: a sequence pulls a row from the cursor only to yield it.  When
    the caller stops the iteration, at least one pair was yielded and the
    rows left on the cursor are the rows of the result minus one row per
    yielded pair; when the loop runs to its end, no row is left. *)
Theorem iterFunc_pulls_only_what_it_yields {C : Type}
    (rs : ResultSet Raw) (yield : C -> T -> option error -> C * bool)
    (c : C) :
  let it := iterFunc {| seq_rows := open rs |} yield c in
  (it_exhausted it = false ->
   (0 < length (it_yielded it) <= length (rs_rows rs))%nat /\
   it_yielded it = decoded <$> take (length (it_yielded it)) (rs_rows rs) /\
   pending (it_rows it) = drop (length (it_yielded it)) (rs_rows rs)) /\
  (it_exhausted it = true -> pending (it_rows it) = []).
Proof.
  intros it. subst it. unfold iterFunc, defer_Close.
  cbn [it_exhausted it_yielded it_rows seq_rows].
  rewrite Rows_Close_pending.
  pose proof (iterBody_rest yield (open rs) c [] eq_refl) as Hrest.
  cbv zeta in Hrest. cbn [pending open] in Hrest.
  split; intros Hex; rewrite Hex in Hrest; [|done].
  destruct Hrest as (n & Hn & Hy & Hp). cbn [app] in Hy.
  assert (Hlen : length (it_yielded (iterBody yield (open rs) c [])) = S n).
  { rewrite Hy, length_fmap, length_take. lia. }
  rewrite Hlen. split; [lia|]. by split.
Qed.
End CollectFacts.

(** ** What reaches the connection *)

Section RenderFacts.
Context {any : Type}.
Implicit Types (m : gmap string any) (ks : list string).

(** A single predicate with a text is put after [WHERE] and its arguments
    come last. *)
Lemma appendWhere_one (pred : Sqlizer any) (w sql : string)
    (wargs args : list any) :
  ToSql pred = Ok (w, wargs) -> w <> "" ->
  appendWhere [pred] sql args
  = Ok ((sql ++ " WHERE " ++ w)%string, (args ++ wargs)%list).
Proof.
  intros Hpred Hw. unfold appendWhere, appendToSql. rewrite Hpred.
  destruct (String.eqb_spec w "") as [->|_]; [done|].
  by rewrite string_app_assoc.
Qed.

(** A failing predicate makes the whole clause fail with its error. *)
Lemma appendWhere_fail (pred : Sqlizer any) (sql : string) (args : list any)
    (err : error) :
  ToSql pred = Fail err -> appendWhere [pred] sql args = Fail err.
Proof. intros Hpred. unfold appendWhere, appendToSql. by rewrite Hpred. Qed.

Lemma lookups_length m ks :
  (forall k, k ∈ ks -> is_Some (m !! k)) ->
  length (omap (fun k => m !! k) ks) = length ks.
Proof.
  induction ks as [|k ks IH]; intros Hks; [done|].
  cbn. destruct (Hks k) as [v Hv]; [left|]. rewrite Hv. cbn. f_equal.
  apply IH. intros k' Hk'. apply Hks. by right.
Qed.

Lemma sorted_keys_nonempty m :
  m <> ∅ -> sort_strings (fst <$> map_to_list m) <> [].
Proof.
  intros Hm Hnil. apply Hm, map_to_list_empty_iff.
  pose proof (sort_strings_perm (fst <$> map_to_list m)) as Hperm.
  rewrite Hnil in Hperm. apply Permutation_nil_l in Hperm.
  symmetry in Hperm. by apply fmap_nil_inv in Hperm.
Qed.

Lemma Update_SetMap_table_where (b : UpdateBuilder any) m ks :
  let b' := foldl (fun b key =>
                     match m !! key with
                     | Some val => Update_Set b key val
                     | None => b
                     end) b ks in
  ub_Table b' = ub_Table b /\ ub_WhereParts b' = ub_WhereParts b.
Proof.
  revert b. induction ks as [|k ks IH]; intros b; cbn; [done|].
  destruct (IH (match m !! k with
                | Some val => Update_Set b k val
                | None => b
                end)) as [-> ->].
  by destruct (m !! k).
Qed.
End RenderFacts.

Section StatementFacts.
Context {any Raw T : Type} `{!Reflected any Raw T} `{!Int64Scanner Raw}.
Context {St : Type}.
Variable Tag : string.
Implicit Types (ctx : Context) (db : ExtContext any Raw St) (s : St).
Implicit Types (table idCol : string) (a : T).

(** X5: a statement that cannot be built is never sent.  Each helper
    returns the builder's error with its zero result, and the state of the
    connection is the one it was called with. *)
Theorem build_error_reaches_no_connection
    ctx db (omitEmpty : bool) table idCol a (where_ : Sqlizer any) s
    (err : error) :
  (Insert_ToSql (InsertFull_bld Tag omitEmpty table a) = Fail err ->
   InsertFull Tag ctx db omitEmpty table a s = (s, (0, Some err))) /\
  (Insert_ToSql (InsertPSQLFull_bld Tag omitEmpty table idCol a) = Fail err ->
   InsertPSQLFull Tag ctx db omitEmpty table idCol a s = (s, (0, Some err))) /\
  (Update_ToSql (Update_bld Tag table a where_) = Fail err ->
   Update Tag ctx db table a where_ s = (s, (0, Some err))) /\
  (Delete_ToSql (Delete_Where (sq.Delete table) where_) = Fail err ->
   Delete ctx db table where_ s = (s, Some err)) /\
  (Select_ToSql (Select_bld (T := T) Tag table where_) = Fail err ->
   SelectRow (T := T) Tag ctx db table where_ s = (s, (None, Some err))) /\
  (Select_ToSql (Exists_bld table where_) = Fail err ->
   Exists ctx db table where_ s = (s, (false, Some err))).
Proof.
  repeat split; intros Hbuild.
  - unfold InsertFull. by rewrite Hbuild.
  - unfold InsertPSQLFull. by rewrite Hbuild.
  - unfold Update. by rewrite Hbuild.
  - unfold Delete. by rewrite Hbuild.
  - unfold SelectRow. by rewrite Hbuild.
  - unfold Exists. by rewrite Hbuild.
Qed.

(** A predicate that fails to render fails every statement it is put
    into (the select needs a column to get as far as the predicate). *)
Lemma failing_predicate_fails_build table a (where_ : Sqlizer any)
    (err : error) :
  ToSql where_ = Fail err ->
  (table <> "" -> ToMap a Tag true false <> ∅ ->
   Update_ToSql (Update_bld Tag table a where_) = Fail err) /\
  (table <> "" ->
   Delete_ToSql (Delete_Where (sq.Delete table) where_) = Fail err) /\
  (Tags (zero (T := T)) Tag <> [] ->
   Select_ToSql (Select_bld (T := T) Tag table where_) = Fail err) /\
  Select_ToSql (Exists_bld table where_) = Fail err.
Proof.
  intros Hpred. repeat split.
  - intros Htable Hm. unfold Update_ToSql.
    rewrite (Update_bld_clauses Tag table a where_).
    unfold Update_bld, Update_Where, Update_SetMap. cbn [ub_Table ub_WhereParts].
    destruct (Update_SetMap_table_where (sq.Update table)
                (ToMap a Tag true false)
                (sort_strings (fst <$> map_to_list (ToMap a Tag true false))))
      as [-> ->].
    cbn [sq.Update ub_Table ub_WhereParts app].
    destruct (String.eqb_spec table "") as [->|_]; [done|].
    pose proof (bindings_of_sorted_perm (ToMap a Tag true false)) as Hperm.
    destruct (bindings_of _ _) as [|kv l].
    + apply Permutation_nil_l in Hperm. symmetry in Hperm.
      by apply map_to_list_empty_iff in Hperm.
    + by apply appendWhere_fail.
  - intros Htable. unfold Delete_ToSql. cbn.
    destruct (String.eqb_spec table "") as [->|_]; [done|].
    by rewrite Hpred.
  - intros Hcols. unfold Select_ToSql, Select_bld. cbn.
    destruct (Tags zero Tag) as [|col cols]; [done|].
    by rewrite Hpred.
  - unfold Select_ToSql, Exists_bld. cbn. by rewrite Hpred.
Qed.

(** X6: what the connection answers to the statement is what the write
    helpers report.  An execution error comes back unchanged with a zero
    result; [Delete] returns nil after any successful execution, without
    looking at the result. *)
Theorem exec_outcome_is_reported
    ctx db (omitEmpty : bool) table a (where_ : Sqlizer any) s :
  (forall (stmt : string) (binds : list any) (s' : St) (err : error),
     Insert_ToSql (InsertFull_bld Tag omitEmpty table a) = Ok (stmt, binds) ->
     ExecContext db ctx (Rebind db stmt) binds s = (s', Fail err) ->
     InsertFull Tag ctx db omitEmpty table a s = (s', (0, Some err))) /\
  (forall (query : string) (args : list any) (s' : St) (err : error),
     Update_ToSql (Update_bld Tag table a where_) = Ok (query, args) ->
     ExecContext db ctx (Rebind db query) args s = (s', Fail err) ->
     Update Tag ctx db table a where_ s = (s', (0, Some err))) /\
  (forall (query : string) (args : list any) (s' : St) (r : result Result),
     Delete_ToSql (Delete_Where (sq.Delete table) where_) = Ok (query, args) ->
     ExecContext db ctx (Rebind db query) args s = (s', r) ->
     Delete ctx db table where_ s
     = (s', match r with Fail err => Some err | Ok _ => None end)).
Proof.
  repeat split.
  - intros stmt binds s' err Hbuild Hexec. unfold InsertFull.
    rewrite Hbuild. cbv zeta. by rewrite Hexec.
  - intros query args s' err Hbuild Hexec. unfold Update.
    rewrite Hbuild. cbv zeta. by rewrite Hexec.
  - intros query args s' r Hbuild Hexec. unfold Delete.
    rewrite Hbuild. cbv zeta. rewrite Hexec. by destruct r.
Qed.

(** X7: for a record with something to insert, [InsertFull] sends, as one
    execution, an INSERT naming the columns of
    [ToMap(a, Tag, omitEmpty, true)] in sorted order, with one placeholder
    and one argument per column and the suffix [ON CONFLICT DO NOTHING];
    when the execution and [LastInsertId] succeed it returns that id.
    [Insert] is [InsertFull] with [omitEmpty] on. *)
Theorem InsertFull_statement ctx db (omitEmpty : bool) table a s :
  table <> "" -> ToMap a Tag omitEmpty true <> ∅ ->
  let m := ToMap a Tag omitEmpty true in
  let cols := sort_strings (fst <$> map_to_list m) in
  let binds := omap (fun col => m !! col) cols in
  let stmt := ("INSERT INTO " ++ table ++ " (" ++ String.concat "," cols ++
               ") VALUES " ++ placeholders binds ++
               " ON CONFLICT DO NOTHING")%string in
  Insert_ToSql (InsertFull_bld Tag omitEmpty table a) = Ok (stmt, binds) /\
  zip cols binds ≡ₚ map_to_list m /\
  length binds = length cols /\
  Insert Tag ctx db table a s = InsertFull Tag ctx db true table a s /\
  forall (s' : St) (res : Result) (id : Z),
    ExecContext db ctx (Rebind db stmt) binds s = (s', Ok res) ->
    LastInsertId res = (id, None) ->
    InsertFull Tag ctx db omitEmpty table a s = (s', (id, None)).
Proof.
  intros Htable Hm m cols binds stmt.
  assert (Hbuild : Insert_ToSql (InsertFull_bld Tag omitEmpty table a)
                   = Ok (stmt, binds)).
  { unfold Insert_ToSql, InsertFull_bld. cbn. fold m. fold cols. fold binds.
    destruct (String.eqb_spec table "") as [->|_]; [done|].
    pose proof (sorted_keys_nonempty m Hm) as Hcols. fold cols in Hcols.
    rewrite app_nil_r. subst stmt.
    destruct cols as [|col cols']; [done|].
    rewrite !string_app_assoc. reflexivity. }
  split; [exact Hbuild|]. split; [|split; [|split]].
  - subst binds cols. rewrite zip_lookups by apply sorted_keys_present.
    apply bindings_of_sorted_perm.
  - apply lookups_length, sorted_keys_present.
  - reflexivity.
  - intros s' res id Hexec Hid. unfold InsertFull.
    rewrite Hbuild. cbv zeta. by rewrite Hexec, Hid.
Qed.

(** The statement [Update] builds, for a record with something to set
    and a predicate that renders to a text. *)
Lemma Update_bld_ToSql table a (where_ : Sqlizer any)
    (w : string) (wargs : list any) :
  table <> "" -> ToMap a Tag true false <> ∅ ->
  ToSql where_ = Ok (w, wargs) -> w <> "" ->
  let m := ToMap a Tag true false in
  let cols := sort_strings (fst <$> map_to_list m) in
  Update_ToSql (Update_bld Tag table a where_)
  = Ok (("UPDATE " ++ table ++ " SET " ++
         String.concat ", " ((fun col => col ++ " = ?") <$> cols) ++
         " WHERE " ++ w)%string,
        ((bindings_of m cols).*2 ++ wargs)%list).
Proof.
  intros Htable Hm Hpred Hw m cols.
  assert (Hfst : (bindings_of m cols).*1 = cols)
    by apply bindings_of_fst, sorted_keys_present.
  unfold Update_ToSql.
  rewrite (Update_bld_clauses Tag table a where_).
  unfold Update_bld, Update_Where, Update_SetMap.
  cbn [ub_Table ub_WhereParts].
  destruct (Update_SetMap_table_where (sq.Update table)
              (ToMap a Tag true false)
              (sort_strings (fst <$> map_to_list (ToMap a Tag true false))))
    as [-> ->].
  fold m. fold cols.
  cbn [sq.Update ub_Table ub_WhereParts app].
  destruct (String.eqb_spec table "") as [->|_]; [done|].
  pose proof (bindings_of_sorted_perm m) as Hperm. fold cols in Hperm.
  destruct (bindings_of m cols) as [|kv l] eqn:Hb.
  - apply Permutation_nil_l in Hperm. symmetry in Hperm.
    by apply map_to_list_empty_iff in Hperm.
  - rewrite (appendWhere_one where_ w _ wargs _ Hpred Hw).
    rewrite <- Hfst, <- list_fmap_compose.
    rewrite !string_app_assoc. reflexivity.
Qed.

(** X8: for a record with something to set and a predicate that renders
    to a text [w], [Update] sends, as one execution, [UPDATE table SET]
    with one [column = ?] per column of [ToMap(a, Tag, true, false)] in
    sorted order, then [WHERE w]; the arguments are the values of those
    columns in that order followed by the arguments of the predicate.
    When the execution and [RowsAffected] succeed it returns that count. *)
Theorem Update_statement ctx db table a (where_ : Sqlizer any) s
    (w : string) (wargs : list any) :
  table <> "" -> ToMap a Tag true false <> ∅ ->
  ToSql where_ = Ok (w, wargs) -> w <> "" ->
  let m := ToMap a Tag true false in
  let cols := sort_strings (fst <$> map_to_list m) in
  let vals := (bindings_of m cols).*2 in
  let query := ("UPDATE " ++ table ++ " SET " ++
                String.concat ", " ((fun col => col ++ " = ?") <$> cols) ++
                " WHERE " ++ w)%string in
  Update_ToSql (Update_bld Tag table a where_)
  = Ok (query, (vals ++ wargs)%list) /\
  zip cols vals ≡ₚ map_to_list m /\
  forall (s' : St) (res : Result) (raff : Z),
    ExecContext db ctx (Rebind db query) (vals ++ wargs)%list s
    = (s', Ok res) ->
    RowsAffected res = (raff, None) ->
    Update Tag ctx db table a where_ s = (s', (raff, None)).
Proof.
  intros Htable Hm Hpred Hw m cols vals query.
  pose proof (Update_bld_ToSql table a where_ w wargs Htable Hm Hpred Hw)
    as Hbuild.
  cbv zeta in Hbuild. fold m in Hbuild. fold cols in Hbuild.
  split; [exact Hbuild|]. split.
  - subst vals.
    rewrite <- (bindings_of_fst m cols (sorted_keys_present m)) at 1.
    rewrite zip_fst_snd. apply bindings_of_sorted_perm.
  - intros s' res raff Hexec Hraff. unfold Update.
    rewrite Hbuild. cbv zeta. subst query vals. by rewrite Hexec, Hraff.
Qed.

(** X9: [Exists] takes for "no row" every scan error that [errors.Is]
    matches with [sql.ErrNoRows], also one that merely wraps it, and also
    when it is the error of executing the query: the result is
    [(false, nil)] and the error is not reported. *)
Theorem Exists_hides_wrapped_ErrNoRows
    ctx db table (where_ : Sqlizer any) s
    (query : string) (args : list any) (s' : St)
    (r : result (ResultSet Raw)) (flag : Z) (err : error) :
  Select_ToSql (Exists_bld table where_) = Ok (query, args) ->
  queryRowContext db ctx (Rebind db query) args s = (s', r) ->
  Row_Scan scanInt64 (result_map open r) 0 = (flag, Some err) ->
  errors_Is err ErrNoRows = true ->
  Exists ctx db table where_ s = (s', (false, None)).
Proof.
  intros Hbuild Hquery Hscan His. unfold Exists, QueryRowxContext.
  rewrite Hbuild. cbv zeta. by rewrite Hquery, Hscan, His.
Qed.

(** X10: [SelectRow] decodes the first row of the result into a zero
    record and returns it; rows after the first are not looked at.  If
    closing the cursor after the decoding reports an error, that error is
    returned and the record is not. *)
Theorem SelectRow_returns_first_row
    ctx db table (where_ : Sqlizer any) s
    (query : string) (args : list any) (s' : St) (rs : ResultSet Raw)
    (raw : Raw) (rest : list Raw) (t : T) :
  Select_ToSql (Select_bld (T := T) Tag table where_) = Ok (query, args) ->
  queryRowContext db ctx (Rebind db query) args s = (s', Ok rs) ->
  rs_rows rs = raw :: rest ->
  StructScan raw zero = (t, None) ->
  SelectRow (T := T) Tag ctx db table where_ s
  = (s', match rs_closeErr rs with
         | None => (Some t, None)
         | Some err => (None, Some err)
         end).
Proof.
  intros Hbuild Hquery Hrows Hscan. unfold SelectRow, QueryRowxContext.
  rewrite Hbuild. cbv zeta. rewrite Hquery. cbn [result_map].
  rewrite (Row_Scan_decoded StructScan rs raw rest zero t Hrows Hscan).
  by destruct (rs_closeErr rs).
Qed.
End StatementFacts.

(** ** The by-id helpers *)

Section ByIDFacts.
Context {any Raw T : Type} `{!Reflected any Raw T} `{!Int64Scanner Raw}.
Context `{!Predicates any}.
Context {St : Type}.
Variable Tag : string.
Implicit Types (ctx : Context) (db : ExtContext any Raw St) (s : St).
Implicit Types (table : string) (a : T).

(** The SELECT of a builder with columns, a table and one predicate that
    renders to a text. *)
Lemma Select_render (cols : list string) table (pred : Sqlizer any)
    (w : string) (wargs : list any) :
  cols <> [] -> table <> "" -> ToSql pred = Ok (w, wargs) -> w <> "" ->
  Select_ToSql (Select_Where (Select_From (sq.Select cols) table) pred)
  = Ok (("SELECT " ++ String.concat ", " cols ++ " FROM " ++ table ++
         " WHERE " ++ w)%string, wargs).
Proof.
  intros Hcols Htable Hpred Hw. unfold Select_ToSql. cbn.
  destruct cols as [|col cols]; [done|].
  destruct (String.eqb_spec table "") as [->|_]; [done|].
  rewrite Hpred. destruct (String.eqb_spec w "") as [->|_]; [done|].
  rewrite !string_app_assoc. reflexivity.
Qed.

(** The DELETE of a builder with a table and one predicate that renders
    to a text. *)
Lemma Delete_render table (pred : Sqlizer any) (w : string)
    (wargs : list any) :
  table <> "" -> ToSql pred = Ok (w, wargs) -> w <> "" ->
  Delete_ToSql (Delete_Where (sq.Delete table) pred)
  = Ok (("DELETE FROM " ++ table ++ " WHERE " ++ w)%string, wargs).
Proof.
  intros Htable Hpred Hw. unfold Delete_ToSql. cbn.
  destruct (String.eqb_spec table "") as [->|_]; [done|].
  rewrite Hpred. destruct (String.eqb_spec w "") as [->|_]; [done|].
  rewrite !string_app_assoc. reflexivity.
Qed.

(** X11: when [sq.Eq] renders the id as [id = ?] (as it does for a plain
    value), [DeleteByID] executes [DELETE FROM table WHERE id = ?] with
    the id as its only argument, and returns the error of that execution,
    or nil. *)
Theorem DeleteByID_statement ctx db table (id : any) s
    (s' : St) (r : result Result) :
  table <> "" ->
  ToSql (Eq {[ "id" := id ]}) = Ok ("id = ?", [id]) ->
  ExecContext db ctx
    (Rebind db ("DELETE FROM " ++ table ++ " WHERE id = ?")) [id] s
  = (s', r) ->
  DeleteByID ctx db table id s
  = (s', match r with Fail err => Some err | Ok _ => None end).
Proof.
  intros Htable Hpred Hexec.
  assert (Hbuild : Delete_ToSql (Delete_Where (sq.Delete table)
                                   (Eq {[ "id" := id ]}))
                   = Ok (("DELETE FROM " ++ table ++ " WHERE id = ?")%string,
                         [id])).
  { by apply (Delete_render table _ "id = ?" [id]). }
  unfold DeleteByID, Delete. rewrite Hbuild.
  cbv zeta. rewrite Hexec. by destruct r.
Qed.

(** X12: when [sq.Eq] renders the id as [id = ?], [UpdateByID] binds the
    values of the SET list first, in the sorted order of their columns,
    and the id last, after the [WHERE]; it returns what [RowsAffected]
    reports. *)
Theorem UpdateByID_binds_id_last ctx db table (id : any) a s
    (s' : St) (res : Result) :
  table <> "" -> ToMap a Tag true false <> ∅ ->
  ToSql (Eq {[ "id" := id ]}) = Ok ("id = ?", [id]) ->
  let m := ToMap a Tag true false in
  let cols := sort_strings (fst <$> map_to_list m) in
  ExecContext db ctx
    (Rebind db ("UPDATE " ++ table ++ " SET " ++
                String.concat ", " ((fun col => col ++ " = ?") <$> cols) ++
                " WHERE id = ?"))
    ((bindings_of m cols).*2 ++ [id])%list s
  = (s', Ok res) ->
  UpdateByID Tag ctx db table id a s = (s', RowsAffected res).
Proof.
  intros Htable Hm Hpred m cols Hexec.
  assert (Hbuild : Update_ToSql (Update_bld Tag table a (Eq {[ "id" := id ]}))
                   = Ok (("UPDATE " ++ table ++ " SET " ++
                          String.concat ", "
                            ((fun col => col ++ " = ?") <$> cols) ++
                          " WHERE id = ?")%string,
                         ((bindings_of m cols).*2 ++ [id])%list)).
  { by apply (Update_bld_ToSql Tag table a _ "id = ?" [id]). }
  unfold UpdateByID, Update. rewrite Hbuild.
  cbv zeta. rewrite Hexec.
  by destruct (RowsAffected res) as [raff [err|]].
Qed.

(** X13: for an id that matches no row, [ExistsByID] answers
    [(false, nil)] while [SelectRowByID] fails with [sql.ErrNoRows] and
    returns no record; both ask with the predicate [id = ?] and the id as
    the only argument. *)
Theorem not_found_by_id ctx db table (id : Z) s :
  table <> "" -> Tags (zero (T := T)) Tag <> [] ->
  ToSql (Eq {[ "id" := ofInt64 id ]}) = Ok ("id = ?", [ofInt64 id]) ->
  (forall (s' : St) (rs : ResultSet Raw),
     queryRowContext db ctx
       (Rebind db ("SELECT 1 as X FROM " ++ table ++ " WHERE id = ?"))
       [ofInt64 id] s = (s', Ok rs) ->
     rs_rows rs = [] -> rs_err rs = None ->
     ExistsByID ctx db table (ofInt64 id) s = (s', (false, None))) /\
  (forall (s' : St) (rs : ResultSet Raw),
     queryRowContext db ctx
       (Rebind db ("SELECT " ++ String.concat ", " (Tags (zero (T := T)) Tag) ++
                   " FROM " ++ table ++ " WHERE id = ?"))
       [ofInt64 id] s = (s', Ok rs) ->
     rs_rows rs = [] -> rs_err rs = None ->
     SelectRowByID (T := T) Tag ctx db table id s
     = (s', (None, Some ErrNoRows))).
Proof.
  intros Htable Hcols Hpred. split; intros s' rs Hquery Hrows Herr.
  - assert (Hbuild : Select_ToSql
                       (Exists_bld table (Eq {[ "id" := ofInt64 id ]}))
                     = Ok (("SELECT 1 as X FROM " ++ table ++
                            " WHERE id = ?")%string, [ofInt64 id])).
    { by apply (Select_render ["1 as X"] table _ "id = ?" [ofInt64 id]). }
    unfold ExistsByID, Exists, QueryRowxContext. rewrite Hbuild.
    cbv zeta. rewrite Hquery. cbn [result_map].
    by rewrite Row_Scan_no_rows.
  - assert (Hbuild : Select_ToSql
                       (Select_bld (T := T) Tag table
                          (Eq {[ "id" := ofInt64 id ]}))
                     = Ok (("SELECT " ++
                            String.concat ", " (Tags (zero (T := T)) Tag) ++
                            " FROM " ++ table ++ " WHERE id = ?")%string,
                           [ofInt64 id])).
    { by apply (Select_render (Tags zero Tag) table _ "id = ?"
                  [ofInt64 id]). }
    unfold SelectRowByID, SelectRow, QueryRowxContext. rewrite Hbuild.
    cbv zeta. rewrite Hquery. cbn [result_map].
    by rewrite Row_Scan_no_rows.
Qed.
End ByIDFacts.

(** ** The search path of a connection string *)

Lemma HasPrefix_spec (s prefix : string) :
  HasPrefix s prefix = true <-> exists post, s = (prefix ++ post)%string.
Proof.
  revert s. induction prefix as [|p prefix IH]; intros s.
  - split; [intros _; by exists s | by destruct s].
  - destruct s as [|c s]; cbn [HasPrefix].
    + split; [done | intros [post Hpost]; discriminate].
    + rewrite andb_true_iff, Ascii.eqb_eq, IH. split.
      * intros [-> [post ->]]. by exists post.
      * intros [post Hpost].
        change (String c s = String p (prefix ++ post)%string) in Hpost.
        injection Hpost as -> ->. split; [done | by exists post].
Qed.

Lemma Contains_spec (s substr : string) :
  Contains s substr = true <->
  exists pre post, s = (pre ++ substr ++ post)%string.
Proof.
  induction s as [|c s IH]; cbn [Contains]; rewrite orb_true_iff.
  - rewrite HasPrefix_spec. split.
    + intros [[post Hpost]|]; [|done]. by exists "", post.
    + intros (pre & post & Hs). left. destruct pre as [|p pre].
      * by exists post.
      * discriminate.
  - rewrite HasPrefix_spec, IH. split.
    + intros [[post Hpost]|(pre & post & ->)].
      * by exists "", post.
      * by exists (String c pre), post.
    + intros (pre & post & Hs). destruct pre as [|p pre].
      * left. by exists post.
      * right.
        change (String c s = String p (pre ++ substr ++ post)%string) in Hs.
        injection Hs as -> ->. by exists pre, post.
Qed.

Section SearchPathFacts.
Context {URL : Type} `{!NetURL URL}.

(** X14: for a connection string that has no [://] in it, and for one
    that does not parse as a URL, [AddSearchPath] appends a space and
    [search_path=] with the schemas separated by commas; the string it
    was given is kept as it is in front. *)
Theorem AddSearchPath_keyword_form (dsn : string) (schema : list string) :
  (forall pre post, dsn <> (pre ++ "://" ++ post)%string) \/
  (exists err, url_Parse dsn = Fail err) ->
  AddSearchPath dsn schema
  = (dsn ++ " search_path=" ++ String.concat "," schema)%string.
Proof.
  intros Hkv. unfold AddSearchPath, Join.
  destruct (url_Parse dsn) as [uri|err]; [|reflexivity].
  destruct Hkv as [Hnone|[err Herr]]; [|discriminate].
  destruct (Contains dsn "://") eqn:Hin; [|reflexivity].
  apply Contains_spec in Hin as (pre & post & Hdsn).
  by destruct (Hnone pre post).
Qed.

(** X15: for a connection string that parses as a URL and has [://] in
    it, [AddSearchPath] prints that URL with a new query: the option
    [--search_path=...] is added after the values [options] already has,
    and every other parameter keeps its values. *)
Theorem AddSearchPath_url_form (dsn : string) (schema : list string)
    (uri : URL) (pre post : string) :
  url_Parse dsn = Ok uri -> dsn = (pre ++ "://" ++ post)%string ->
  exists vals : gmap string (list string),
    AddSearchPath dsn schema
    = URL_String (URL_setRawQuery uri (Values_Encode vals)) /\
    vals !! "options"
    = Some (default [] (URL_Query uri !! "options") ++
            [("--search_path=" ++ String.concat "," schema)%string])%list /\
    forall key, key <> "options" -> vals !! key = URL_Query uri !! key.
Proof.
  intros Hparse Hdsn. unfold AddSearchPath, Join. rewrite Hparse.
  assert (Hin : Contains dsn "://" = true)
    by (apply Contains_spec; eauto).
  rewrite Hin. cbn [negb]. eexists. split; [reflexivity|].
  unfold Values_Add. split.
  - by rewrite lookup_insert_eq.
  - intros key Hkey. by rewrite lookup_insert_ne.
Qed.
End SearchPathFacts.

(** ** Driving a sequence a second time *)

Section RerunFacts.
Context {any Raw T : Type} `{!Reflected any Raw T}.
Context {C : Type}.
Implicit Types (yield : C -> T -> option error -> C * bool).
Implicit Types (rows : Rows Raw) (c : C) (seen : list (T * option error)).

(** What [Err] will report after a run: the cursor's error once the loop
    has run to its end, nothing if the caller stopped it before. *)
Lemma iterBody_lasterr yield rows c seen :
  closed rows = false -> lasterr rows = None ->
  let it := iterBody yield rows c seen in
  lasterr (it_rows it) = if it_exhausted it then terminal rows else None.
Proof.
  funelim (iterBody yield rows c seen); intros Hopen Hlast;
    cbn [it_rows it_exhausted].
  - pose proof Hnext as Hn. revert Hn. unfold Rows_Next. rewrite Hopen.
    destruct (pending rows); [unfold release; simpl; discriminate|].
    intros [= <-]. apply H; done.
  - pose proof Hnext as Hn. revert Hn. unfold Rows_Next. rewrite Hopen.
    destruct (pending rows); [unfold release; simpl; discriminate|].
    by intros [= <-].
  - destruct (Rows_Next_false _ _ Hopen Hnext) as (_ & <- & _). done.
  - destruct (Rows_Next_false _ _ Hopen Hnext) as (_ & <- & _). done.
Qed.

(** On a closed cursor the loop does not start; only the error the cursor
    remembers is yielded. *)
Lemma iterBody_on_closed yield rows c seen :
  closed rows = true ->
  it_yielded (iterBody yield rows c seen)
  = (seen ++ final_pair (lasterr rows))%list.
Proof.
  intros Hclosed. rewrite iterBody_step. unfold Rows_Next. rewrite Hclosed.
  unfold Rows_Err. destruct (lasterr rows); cbn; [done|].
  by rewrite app_nil_r.
Qed.

Lemma Rows_Close_lasterr rows : lasterr (Rows_Close rows).1 = lasterr rows.
Proof. unfold Rows_Close, release. simpl. by destruct (closed rows). Qed.

(** X16: a sequence can be consumed once.  Driving it again after a run
    yields no row at all, whatever was left unread: if the first run went
    to the end of a cursor that ended with an error, that error is yielded
    once more with the zero record; otherwise nothing is yielded. *)
Theorem sequence_is_single_use (rs : ResultSet Raw) yield c yield' c' :
  let first := iterFunc {| seq_rows := open rs |} yield c in
  let second := iterFunc {| seq_rows := it_rows first |} yield' c' in
  it_yielded second
  = (if it_exhausted first then final_pair (rs_err rs) else []) /\
  it_exhausted second = true.
Proof.
  intros first second. subst second first. unfold iterFunc, defer_Close.
  cbn [it_yielded it_exhausted it_rows seq_rows].
  destruct (Rows_Close_counts (it_rows (iterBody yield (open rs) c [])))
    as (Hclosed & _ & _).
  split.
  - rewrite iterBody_on_closed by done. rewrite Rows_Close_lasterr.
    rewrite (iterBody_lasterr yield (open rs) c [] eq_refl eq_refl).
    cbn [app terminal open]. by destruct (it_exhausted _).
  - rewrite iterBody_step. unfold Rows_Next. rewrite Hclosed.
    by destruct (Rows_Err _).
Qed.
End RerunFacts.

(** ** The further properties at concrete inputs *)

Section ConcreteFurther.
Import Mock Sample.

Lemma Collect2_returns_all_records_witness :
  Collect2 (T := Item) (cursor goodRows None)
  = ([ {| ID := 1; Name := "a" |}; {| ID := 3; Name := "c" |} ], None).
Proof.
  eapply eq_trans;
    [apply (Collect2_returns_all_records (T := Item) (rowsOf goodRows None));
       [repeat constructor | reflexivity]
    | reflexivity].
Defined.

Lemma Collect2_stops_at_first_decode_error_witness :
  Collect2 (T := Item) (cursor threeRows (Some down))
  = ([], Some (ErrMsg "sql: Scan error on column index 1")) /\
  pending (it_rows (Collect2_run (T := Item) (cursor threeRows (Some down))))
  = [ [VInt 3; VStr "c"] ] /\
  releases (it_rows (Collect2_run (T := Item) (cursor threeRows (Some down))))
  = 1%nat.
Proof.
  edestruct (Collect2_stops_at_first_decode_error (T := Item)
               (rowsOf threeRows (Some down))
               [[VInt 1; VStr "a"]] [[VInt 3; VStr "c"]] [VInt 2; VBool true]
               {| ID := 2; Name := "" |}
               (ErrMsg "sql: Scan error on column index 1"))
    as (Hres & _ & Hrest & _ & Hrel);
    [reflexivity | repeat constructor | reflexivity |].
  split; [exact Hres|]. split; [exact Hrest | exact Hrel].
Defined.

Lemma Collect2_drops_records_on_terminal_error_witness :
  Collect2 (T := Item) (cursor goodRows (Some down)) = ([], Some down).
Proof.
  apply (Collect2_drops_records_on_terminal_error (T := Item)
           (rowsOf goodRows (Some down)) down);
    [repeat constructor | reflexivity].
Defined.

Lemma iterFunc_pulls_only_what_it_yields_witness :
  it_exhausted (iterFunc (cursor threeRows None) take (1%nat, [])) = false /\
  pending (it_rows (iterFunc (cursor threeRows None) take (1%nat, [])))
  = [ [VInt 2; VBool true]; [VInt 3; VStr "c"] ].
Proof.
  split; [reflexivity|].
  destruct (iterFunc_pulls_only_what_it_yields (T := Item)
              (rowsOf threeRows None) take (1%nat, [])) as [Hstop _].
  destruct (Hstop eq_refl) as (_ & _ & Hrest). exact Hrest.
Defined.

Lemma build_error_reaches_no_connection_witness :
  Update "db" Background (execConn (Ok badResult)) "t" item badPred []
  = ([], (0, Some (ErrMsg "bad predicate"))) /\
  Delete Background (execConn (Ok badResult)) "t" badPred []
  = ([], Some (ErrMsg "bad predicate")) /\
  Exists Background (rowConn (Ok (rowsOf [[VInt 1]] None))) "t" badPred []
  = ([], (false, Some (ErrMsg "bad predicate"))) /\
  Update "db" Background (execConn (Ok badResult)) "t" blank (EqID 1) []
  = ([], (0, Some (ErrMsg
                     "update statements must have at least one Set clause"))).
Proof.
  destruct (build_error_reaches_no_connection (T := Item) "db" Background
              (execConn (Ok badResult)) true "t" "id" item badPred []
              (ErrMsg "bad predicate"))
    as (_ & _ & Hupdate & Hdelete & _ & _).
  destruct (build_error_reaches_no_connection (T := Item) "db" Background
              (rowConn (Ok (rowsOf [[VInt 1]] None))) true "t" "id" item
              badPred [] (ErrMsg "bad predicate"))
    as (_ & _ & _ & _ & _ & Hexists).
  destruct (build_error_reaches_no_connection (T := Item) "db" Background
              (execConn (Ok badResult)) true "t" "id" blank (EqID 1) []
              (ErrMsg "update statements must have at least one Set clause"))
    as (_ & _ & Hblank & _).
  split; [apply Hupdate; reflexivity|].
  split; [apply Hdelete; reflexivity|].
  split; [apply Hexists; reflexivity | apply Hblank; reflexivity].
Defined.

Lemma exec_outcome_is_reported_witness :
  InsertFull "db" Background (execConn (Fail down)) true "t" item []
  = ([CExec "INSERT INTO t (id,name) VALUES (?,?) ON CONFLICT DO NOTHING"
        [VInt 1; VStr "a"]],
     (0, Some down)) /\
  Delete Background (execConn (Ok badResult)) "t" (EqID 1) []
  = ([CExec "DELETE FROM t WHERE id = ?" [VInt 1]], None).
Proof.
  split.
  - edestruct (exec_outcome_is_reported (T := Item) "db" Background
                 (execConn (Fail down)) true "t" item (EqID 1) [])
      as (Hinsert & _ & _).
    apply (Hinsert
             "INSERT INTO t (id,name) VALUES (?,?) ON CONFLICT DO NOTHING"
             [VInt 1; VStr "a"]); reflexivity.
  - edestruct (exec_outcome_is_reported (T := Item) "db" Background
                 (execConn (Ok badResult)) true "t" item (EqID 1) [])
      as (_ & _ & Hdelete).
    apply (Hdelete "DELETE FROM t WHERE id = ?" [VInt 1] _ (Ok badResult));
      reflexivity.
Defined.

Lemma InsertFull_statement_witness :
  Insert_ToSql (InsertFull_bld "db" true "t" item)
  = Ok ("INSERT INTO t (id,name) VALUES (?,?) ON CONFLICT DO NOTHING",
        [VInt 1; VStr "a"]) /\
  InsertFull "db" Background
    (execConn (Ok {| LastInsertId := (9, None); RowsAffected := (1, None) |}))
    true "t" item []
  = ([CExec "INSERT INTO t (id,name) VALUES (?,?) ON CONFLICT DO NOTHING"
        [VInt 1; VStr "a"]],
     (9, None)).
Proof.
  edestruct (InsertFull_statement (T := Item) "db" Background
               (execConn (Ok {| LastInsertId := (9, None);
                                RowsAffected := (1, None) |}))
               true "t" item [])
    as (Hbuild & _ & _ & _ & Hrun).
  - discriminate.
  - intros Hempty. apply (f_equal (fun m => m !! "id")) in Hempty.
    vm_compute in Hempty. discriminate.
  - split; [exact Hbuild|]. eapply Hrun; reflexivity.
Defined.

Lemma Update_statement_witness :
  Update "db" Background
    (execConn (Ok {| LastInsertId := (0, None); RowsAffected := (1, None) |}))
    "t" item (EqID 1) []
  = ([CExec "UPDATE t SET name = ? WHERE id = ?" [VStr "a"; VInt 1]],
     (1, None)).
Proof.
  edestruct (Update_statement (T := Item) "db" Background
               (execConn (Ok {| LastInsertId := (0, None);
                                RowsAffected := (1, None) |}))
               "t" item (EqID 1) [] "id = ?" [VInt 1])
    as (_ & _ & Hrun).
  - discriminate.
  - intros Hempty. apply (f_equal (fun m => m !! "name")) in Hempty.
    vm_compute in Hempty. discriminate.
  - reflexivity.
  - discriminate.
  - eapply Hrun; reflexivity.
Defined.

Lemma Exists_hides_wrapped_ErrNoRows_witness :
  errors_Is wrappedNoRows ErrNoRows = true /\
  Exists Background (rowConn (Fail wrappedNoRows)) "t" (EqID 1) []
  = ([CQueryRow "SELECT 1 as X FROM t WHERE id = ?" [VInt 1]], (false, None)).
Proof.
  split; [reflexivity|].
  apply (Exists_hides_wrapped_ErrNoRows Background
           (rowConn (Fail wrappedNoRows)) "t" (EqID 1) []
           "SELECT 1 as X FROM t WHERE id = ?" [VInt 1] _
           (Fail wrappedNoRows) 0 wrappedNoRows); reflexivity.
Defined.

Lemma SelectRow_returns_first_row_witness :
  SelectRow (T := Item) "db" Background
    (rowConn (Ok (rowsOf threeRows None))) "t" (EqID 1) []
  = ([CQueryRow "SELECT id, name FROM t WHERE id = ?" [VInt 1]],
     (Some {| ID := 1; Name := "a" |}, None)).
Proof.
  eapply (SelectRow_returns_first_row (T := Item) "db" Background
            (rowConn (Ok (rowsOf threeRows None))) "t" (EqID 1) []
            "SELECT id, name FROM t WHERE id = ?" [VInt 1]
            [CQueryRow "SELECT id, name FROM t WHERE id = ?" [VInt 1]]
            (rowsOf threeRows None));
    reflexivity.
Defined.

Lemma DeleteByID_statement_witness :
  DeleteByID Background (execConn (Fail down)) "t" (VInt 4) []
  = ([CExec "DELETE FROM t WHERE id = ?" [VInt 4]], Some down).
Proof.
  apply (DeleteByID_statement Background (execConn (Fail down)) "t" (VInt 4)
           [] _ (Fail down)); [discriminate | reflexivity | reflexivity].
Defined.

Lemma UpdateByID_binds_id_last_witness :
  UpdateByID "db" Background (execConn (Ok badResult)) "t" (VInt 4) item []
  = ([CExec "UPDATE t SET name = ? WHERE id = ?" [VStr "a"; VInt 4]],
     (3, Some (ErrMsg "no rows affected"))).
Proof.
  apply (UpdateByID_binds_id_last (T := Item) "db" Background
           (execConn (Ok badResult)) "t" (VInt 4) item [] _ badResult).
  - discriminate.
  - intros Hempty. apply (f_equal (fun m => m !! "name")) in Hempty.
    vm_compute in Hempty. discriminate.
  - reflexivity.
  - reflexivity.
Defined.

Lemma not_found_by_id_witness :
  ExistsByID Background (rowConn (Ok (rowsOf [] None))) "t" (VInt 4) []
  = ([CQueryRow "SELECT 1 as X FROM t WHERE id = ?" [VInt 4]], (false, None)) /\
  SelectRowByID (T := Item) "db" Background (rowConn (Ok (rowsOf [] None)))
    "t" 4 []
  = ([CQueryRow "SELECT id, name FROM t WHERE id = ?" [VInt 4]],
     (None, Some ErrNoRows)).
Proof.
  edestruct (not_found_by_id (T := Item) "db" Background
               (rowConn (Ok (rowsOf [] None))) "t" 4 [])
    as [Hexists Hselect]; [discriminate | discriminate | reflexivity |].
  split.
  - apply (Hexists _ (rowsOf [] None)); reflexivity.
  - apply (Hselect _ (rowsOf [] None)); reflexivity.
Defined.

Lemma AddSearchPath_keyword_form_witness :
  AddSearchPath (URL := Url) keywordDsn ["app"; "public"]
  = "host=db.local user=app search_path=app,public" /\
  AddSearchPath (URL := Url) "main" [] = "main search_path=".
Proof.
  split.
  - apply (AddSearchPath_keyword_form (URL := Url) keywordDsn
             ["app"; "public"]).
    right. eexists. reflexivity.
  - apply (AddSearchPath_keyword_form (URL := Url) "main" []).
    left. intros pre post Hin.
    assert (Hc : Contains "main" "://" = true)
      by (apply Contains_spec; eauto).
    discriminate Hc.
Defined.

Lemma AddSearchPath_url_form_witness :
  exists vals : gmap string (list string),
    AddSearchPath (URL := Url) urlDsn ["app"; "public"]
    = URL_String
        (URL_setRawQuery
           {| u_base := "postgres://app@db.local/main";
              u_query := "sslmode=disable&options=-c%20x" |}
           (Values_Encode vals)) /\
    vals !! "options" = Some ["-c%20x"; "--search_path=app,public"] /\
    vals !! "sslmode" = Some ["disable"].
Proof.
  edestruct (AddSearchPath_url_form (URL := Url) urlDsn ["app"; "public"]
               {| u_base := "postgres://app@db.local/main";
                  u_query := "sslmode=disable&options=-c%20x" |}
               "postgres"
               "app@db.local/main?sslmode=disable&options=-c%20x")
    as (vals & Hres & Hopt & Hother); [reflexivity | reflexivity |].
  exists vals. split; [exact Hres|]. split; [exact Hopt|].
  rewrite Hother by discriminate. reflexivity.
Defined.

(** The first caller stops after two pairs; the second run finds the
    cursor closed and yields nothing, though a row is unread. *)
Lemma sequence_is_single_use_witness :
  it_yielded
    (iterFunc
       {| seq_rows := it_rows (iterFunc (cursor threeRows (Some down))
                                 take (2%nat, [])) |}
       take (5%nat, []))
  = [] /\
  it_yielded
    (iterFunc
       {| seq_rows := it_rows (iterFunc (cursor threeRows (Some down))
                                 keep []) |}
       keep [])
  = [ ({| ID := 0; Name := "" |}, Some down) ].
Proof.
  split.
  - destruct (sequence_is_single_use (T := Item)
                (rowsOf threeRows (Some down)) take (2%nat, [])
                take (5%nat, [])) as [Hsecond _].
    exact Hsecond.
  - destruct (sequence_is_single_use (T := Item)
                (rowsOf threeRows (Some down)) keep [] keep [])
      as [Hsecond _].
    exact Hsecond.
Defined.
End ConcreteFurther.
